(** * Banner commands of the Azure DevOps CLI extension

    A shallow embedding of
    [azure-devops-extension/azext_devops/dev/admin/banner.py]
    and the properties of its five commands (list, show, add, update,
    remove) over the Settings Store collaborator. *)

From Stdlib Require Import ZArith String Ascii List Lia.
From stdpp Require Import gmap strings list fin_maps.

Local Open Scope Z_scope.

(** ** Data model *)

(** The values a banner field holds once it went through JSON: the code
    copies them between dictionaries without looking inside. Python's
    [None] is [JNull]. *)
Inductive jvalue : Type :=
| JNull
| JString (s : string)
| JNumber (z : Z)
| JBool (b : bool).

#[global] Instance jvalue_eq_dec : EqDecision jvalue.
Proof. solve_decision. Defined.

(** A banner entry is a Python [dict] from sub-key to value, and the
    listing and the [entries] argument are dicts from key to entry. *)
Abbreviation entry := (gmap string jvalue).
Abbreviation entries_map := (gmap string entry).

(** The exception classes the module raises, catches or lets through. *)
Inductive exn : Type :=
| ValueError (msg : string)
| CLIError (msg : string)
| VstsServiceError (msg : string).

#[global] Instance exn_eq_dec : EqDecision exn.
Proof. solve_decision. Defined.

(** The pass-through parameters every command hands to the Settings
    Store unchanged. *)
Record connection : Type := Connection {
  devops_organization : option string;
  detect : option string
}.

(** One call to the Settings Store, as the commands issue them. *)
Inductive call : Type :=
| SettingList (user_scope key : string) (conn : connection)
| SettingAddOrUpdate (entries : entries_map) (user_scope : string)
                     (conn : connection)
| SettingRemove (key user_scope : string) (conn : connection).

(** ** The collaborators *)

(** The Settings Store: a remote service with a state of type [St]. Each
    operation returns normally or raises, and may change the state. *)
Class SettingsStore (St : Type) : Type := {
  store_list : string -> string -> connection -> St ->
               (exn + entries_map) * St;
  store_add_or_update : entries_map -> string -> connection -> St ->
                        (exn + unit) * St;
  store_remove : string -> string -> connection -> St -> (exn + unit) * St
}.

(** What a command runs in: the remote store, the log of the calls made
    to it so far, and the operating system's random source with the
    number of 16-byte draws already taken from it. *)
Record world (St : Type) : Type := World {
  remote : St;
  calls : list call;
  entropy : nat -> Z;
  drawn : nat
}.
Arguments World {St} _ _ _ _.
Arguments remote {St} _.
Arguments calls {St} _.
Arguments entropy {St} _.
Arguments drawn {St} _.

(** ** A state and exception monad *)

Definition M (St A : Type) : Type := world St -> (exn + A) * world St.

Definition ret {St A} (a : A) : M St A := fun w => (inr a, w).

Definition raise {St A} (e : exn) : M St A := fun w => (inl e, w).

Definition bind {St A B} (m : M St A) (k : A -> M St B) : M St B :=
  fun w =>
    match m w with
    | (inl e, w') => (inl e, w')
    | (inr a, w') => k a w'
    end.

Notation "x <- m ;; k" := (bind m (fun x => k))
  (at level 100, m at next level, right associativity).

(** [try: ... except VstsServiceError as ex: raise CLIError(ex)]: the
    handler every command wraps its body in. *)
Definition on_service_error (e : exn) : exn :=
  match e with
  | VstsServiceError msg => CLIError msg
  | _ => e
  end.

Definition try_except {St A} (body : M St A) : M St A :=
  fun w =>
    match body w with
    | (inl e, w') => (inl (on_service_error e), w')
    | (inr a, w') => (inr a, w')
    end.

(** A collaborator that returns or raises without touching the store. *)
Definition lift_result {St A} (r : exn + A) : M St A :=
  match r with
  | inl e => raise e
  | inr a => ret a
  end.

(** ** [str(uuid.uuid4())] of Python's standard library *)

(** [os.urandom(16)] read as a big-endian integer. *)
Definition urandom16 {St} : M St Z :=
  fun w =>
    (inr (entropy w (drawn w) mod 2 ^ 128),
     World (remote w) (calls w) (entropy w) (S (drawn w))).

(** [UUID(bytes=..., version=4)]: the variant bits become [10] and the
    version nibble becomes [4]. *)
Definition uuid_of_random (int : Z) : Z :=
  let int := Z.land int (Z.lnot (Z.shiftl 0xc000 48)) in
  let int := Z.lor int (Z.shiftl 0x8000 48) in
  let int := Z.land int (Z.lnot (Z.shiftl 0xf000 64)) in
  Z.lor int (Z.shiftl 4 76).

Definition hex_digit (d : Z) : ascii :=
  match d with
  | 0 => "0" | 1 => "1" | 2 => "2" | 3 => "3" | 4 => "4" | 5 => "5"
  | 6 => "6" | 7 => "7" | 8 => "8" | 9 => "9" | 10 => "a" | 11 => "b"
  | 12 => "c" | 13 => "d" | 14 => "e" | _ => "f"
  end%char.

(** The [width] low hexadecimal digits of [n], most significant first:
    ['%032x' % n] at width 32 for [n] below [2 ^ 128]. *)
Fixpoint hex_fixed (width : nat) (n : Z) : list ascii :=
  match width with
  | O => []
  | S width' => hex_fixed width' (n / 16) ++ [hex_digit (n mod 16)]
  end.

(** [UUID.__str__]: the digits grouped 8-4-4-4-12. *)
Definition uuid_str (n : Z) : string :=
  let hex := hex_fixed 32 n in
  let dash := "-"%char in
  string_of_list_ascii
    (take 8 hex ++ dash :: take 4 (drop 8 hex) ++ dash ::
     take 4 (drop 12 hex) ++ dash :: take 4 (drop 16 hex) ++ dash ::
     drop 20 hex).

Definition uuid4 {St} : M St Z :=
  r <- urandom16 ;; ret (uuid_of_random r).

(** ** Shapes of entries *)

Definition banner_fields : gset string :=
  {[ "message"; "level"; "expirationDate" ]}.

(** A plain mapping with at most the three sub-keys. *)
Definition banner_shaped (e : entry) : Prop := dom e ⊆ banner_fields.

Definition writes_banner_shaped (c : call) : Prop :=
  match c with
  | SettingAddOrUpdate entries _ _ =>
      map_Forall (fun _ e => banner_shaped e) entries
  | _ => True
  end.

(** [key in d] and [d[key]] for a key that may be [None]: the listing
    comes from JSON, so its keys are strings and [None] is never one. *)
Definition listed (existing_entries : entries_map)
    (message_id : option string) : option entry :=
  match message_id with
  | Some k => existing_entries !! k
  | None => None
  end.

(** ['%s' % message_id] *)
Definition percent_s (message_id : option string) : string :=
  match message_id with
  | Some k => k
  | None => "None"
  end.

(** Reading a hexadecimal digit back, and the characters that are not
    the separator of the groups. *)
Definition hex_value (c : ascii) : Z :=
  let n := Z.of_nat (nat_of_ascii c) in
  if n <=? 57 then n - 48 else n - 87.

Definition not_dash (c : ascii) : bool := negb (Ascii.eqb c "-").

(** The bits [uuid4] sets itself: version 4 and variant [10]. *)
Definition uuid_fixed_bits : Z := Z.lor (Z.shiftl 0x8000 48) (Z.shiftl 4 76).

(** The 122 bits of a 16-byte draw that [uuid4] keeps. *)
Definition uuid_random_bits : Z :=
  Z.land (Z.ones 128)
         (Z.land (Z.lnot (Z.shiftl 0xc000 48)) (Z.lnot (Z.shiftl 0xf000 64))).

(** ** An in-memory Settings Store *)

Module MemStore.

(** Modelled from the spec: the Settings Store service behind
    [setting.py] is not in the repository. The spec stores each banner
    as one entry at a scope under the key [<namespace-prefix>/<id>], so
    the state maps a scope and a key to an entry. *)
Abbreviation state := (gmap (string * string) entry).

Fixpoint strip_prefix (p s : string) : option string :=
  match p with
  | EmptyString => Some s
  | String a p' =>
      match s with
      | EmptyString => None
      | String b s' => if Ascii.eqb a b then strip_prefix p' s' else None
      end
  end.

Definition collect (user_scope key : string)
    (k : string * string) (v : entry) (acc : entries_map) : entries_map :=
  if String.eqb (fst k) user_scope then
    match strip_prefix (key +:+ "/") (snd k) with
    | Some sub => <[ sub := v ]> acc
    | None => acc
    end
  else acc.

(** Modelled from the spec: [list(scope, key) -> mapping] of the
    Settings Store. The spec enumerates banners by listing all entries
    under the namespace prefix and treating each sub-key suffix as an
    id, and has [show] find a banner under its id in that mapping: the
    listing holds every entry of the scope whose key starts with the
    given key and a slash, under the rest of its key. *)
Definition list_under (user_scope key : string) (st : state) : entries_map :=
  map_fold (collect user_scope key) ∅ st.

(** Modelled from the spec: [addOrUpdate(scope, entries) -> void] of the
    Settings Store, which overwrites any entry already at a key. *)
Definition add_or_update (entries : entries_map) (user_scope : string)
    (st : state) : state :=
  kmap (pair user_scope) entries ∪ st.

(** Modelled from the spec: [remove(scope, key) -> void] of the Settings
    Store. A key that is not there is left alone. *)
Definition remove (key user_scope : string) (st : state) : state :=
  delete (user_scope, key) st.

(** Modelled from the spec: the Settings Store as a whole. Communication
    never fails here, and the connection parameters select no other
    store. *)
#[global] Instance mem_store : SettingsStore state := {
  store_list user_scope key _ st := (inr (list_under user_scope key st), st);
  store_add_or_update entries user_scope _ st :=
    (inr tt, add_or_update entries user_scope st);
  store_remove key user_scope _ st := (inr tt, remove key user_scope st)
}.

Definition is_digit (c : ascii) : bool :=
  (48 <=? nat_of_ascii c)%nat && (nat_of_ascii c <=? 57)%nat.

Definition is_date (value : string) : bool :=
  match list_ascii_of_string value with
  | [y1; y2; y3; y4; d1; m1; m2; d2; a1; a2] =>
      forallb is_digit [y1; y2; y3; y4; m1; m2; a1; a2]
      && Ascii.eqb d1 "-" && Ascii.eqb d2 "-"
  | _ => false
  end.

(** Modelled from the spec: the Date Normalizer
    [convert_date_string_to_iso8601] of [common/arguments.py] is not in
    the repository; the spec says it turns a date expression into a
    canonical timestamp string and fails with a validation error on
    unparseable input. This one knows only the form [YYYY-MM-DD]. *)
Definition convert_date (value argument : string) : exn + string :=
  if is_date value then inr (value +:+ "T00:00:00")
  else inl (ValueError ("The --" +:+ argument +:+
                        " argument must be a valid ISO 8601 string")).

(** Modelled from the spec: the namespace key [GLOBAL_MESSAGE_BANNERS_KEY]
    of [setting.py] is a fixed prefix string; this is one such string. *)
Definition KEY : string := "GlobalMessageBanners".

Definition no_conn : connection := Connection None None.

Definition empty_world : world state :=
  World ∅ [] (fun n => Z.of_nat n) O.

(** A store holding one banner, written by some other client, that has
    a level and nothing else. *)
Definition level_only_world : world state :=
  World {[ ("host", "GlobalMessageBanners/m1") := {[ "level" := JString "info" ]} ]}
        [] (fun n => Z.of_nat n) O.

End MemStore.

(** ** A Settings Store that cannot be reached *)

Module DownStore.

(** Modelled from the spec: each operation of the Settings Store fails
    with a service error on communication failure. Here every call
    fails that way, with one message, and there is no state to speak
    of. *)
Definition refused : string := "Connection refused".

#[global] Instance down_store : SettingsStore unit := {
  store_list _ _ _ st := (inl (VstsServiceError refused), st);
  store_add_or_update _ _ _ st := (inl (VstsServiceError refused), st);
  store_remove _ _ _ st := (inl (VstsServiceError refused), st)
}.

Definition world0 : world unit := World tt [] (fun n => Z.of_nat n) O.

End DownStore.

(** [if message_id is None or message_id == '':
       message_id = str(uuid.uuid4())] *)
Definition default_id {St} (message_id : option string) : M St string :=
  match message_id with
  | None | Some "" => u <- uuid4 ;; ret (uuid_str u)
  | Some given => ret given
  end.

(** Whether a message names a command-line flag. *)
Definition mentions (flag msg : string) : bool :=
  match String.index 0 flag msg with
  | Some _ => true
  | None => false
  end.

(** ** The commands *)

Section Banner.

Context {St : Type} `{SettingsStore St}.

(** The namespace key constant of [setting.py], imported by the module. *)
Variable GLOBAL_MESSAGE_BANNERS_KEY : string.

(** The Date Normalizer of [common/arguments.py], imported by the module:
    called with the value and the argument's name, it returns the
    canonical timestamp string or raises. *)
Variable convert_date_string_to_iso8601 : string -> string -> exn + string.

(** Modelled from the spec: the constant [USER_SCOPE_HOST] of
    [setting.py] is missing; the spec says every write is at scope
    [host]. *)
Definition USER_SCOPE_HOST : string := "host".

(** Modelled from the spec: [setting_list] of [setting.py] is missing;
    the spec gives the Settings Store contract
    [list(scope, key) -> mapping], failing with a service error. The
    call is logged. *)
Definition setting_list (user_scope key : string) (conn : connection)
  : M St entries_map :=
  fun w =>
    let '(r, s') := store_list user_scope key conn (remote w) in
    (r, World s' (calls w ++ [SettingList user_scope key conn])
              (entropy w) (drawn w)).

(** Modelled from the spec: [setting_add_or_update] of [setting.py] is
    missing; the contract is [addOrUpdate(scope, entries) -> void]. It
    returns nothing and leaves the dict it is given as it is. The call is
    logged. *)
Definition setting_add_or_update (entries : entries_map)
    (user_scope : string) (conn : connection) : M St unit :=
  fun w =>
    let '(r, s') := store_add_or_update entries user_scope conn (remote w) in
    (r, World s' (calls w ++ [SettingAddOrUpdate entries user_scope conn])
              (entropy w) (drawn w)).

(** Modelled from the spec: [setting_remove] of [setting.py] is missing;
    the contract is [remove(scope, key) -> void]. The call is logged. *)
Definition setting_remove (key user_scope : string) (conn : connection)
  : M St unit :=
  fun w =>
    let '(r, s') := store_remove key user_scope conn (remote w) in
    (r, World s' (calls w ++ [SettingRemove key user_scope conn])
              (entropy w) (drawn w)).

Definition _get_banner_key (message_id : string) : string :=
  (GLOBAL_MESSAGE_BANNERS_KEY +:+ "/") +:+ message_id.

Definition banner_list (conn : connection) : M St entries_map :=
  try_except (setting_list "host" GLOBAL_MESSAGE_BANNERS_KEY conn).

Definition not_found_message (shown_id : string) : string :=
  "The following banner was not found: " +:+ shown_id.

Definition banner_show (message_id : string) (conn : connection)
  : M St entries_map :=
  try_except
    (existing_entries <-
       setting_list "host" GLOBAL_MESSAGE_BANNERS_KEY conn ;;
     match existing_entries !! message_id with
     | None => raise (ValueError (not_found_message message_id))
     | Some existing_entry => ret {[ message_id := existing_entry ]}
     end).

(** [if expiration is not None:
       expiration_iso8601 = convert_date_string_to_iso8601(
           value=expiration, argument='expiration')
     else: expiration_iso8601 = None] *)
Definition normalized (expiration : option string) : exn + option string :=
  match expiration with
  | Some value =>
      match convert_date_string_to_iso8601 value "expiration" with
      | inl e => inl e
      | inr iso => inr (Some iso)
      end
  | None => inr None
  end.

Definition normalize_expiration (expiration : option string)
  : M St (option string) :=
  lift_result (normalized expiration).

(** [if cond: d[key] = value], for an optional string. *)
Definition set_if_given (key : string) (value : option string) (d : entry)
  : entry :=
  match value with
  | Some v => <[ key := JString v ]> d
  | None => d
  end.

Definition banner_add (message : string)
    (banner_type message_id expiration : option string)
    (conn : connection) : M St entries_map :=
  try_except
    (expiration_iso8601 <- normalize_expiration expiration ;;
     message_id <- default_id message_id ;;
     let setting_key := _get_banner_key message_id in
     let e := {[ "message" := JString message ]} in
     let e := set_if_given "level" banner_type e in
     let e := set_if_given "expirationDate" expiration_iso8601 e in
     let entries := {[ setting_key := e ]} in
     _ <- setting_add_or_update entries USER_SCOPE_HOST conn ;;
     ret {[ message_id := e ]}).

Definition no_fields_message : string :=
  "At least one of the following arguments need to be supplied: --message, --type, " +:+
  "--expiration.".

(** [if value is not None: d[key] = value
     elif key in existing_entry: d[key] = existing_entry[key]] *)
Definition set_or_carry (key : string) (value : option string)
    (existing_entry d : entry) : entry :=
  match value with
  | Some v => <[ key := JString v ]> d
  | None =>
      match existing_entry !! key with
      | Some old => <[ key := old ]> d
      | None => d
      end
  end.

(** A Python string or [None] as a dictionary value. *)
Definition jvalue_of (value : option string) : jvalue :=
  match value with
  | Some v => JString v
  | None => JNull
  end.

Definition banner_update
    (message banner_type message_id expiration : option string)
    (conn : connection) : M St entries_map :=
  try_except
    (_ <- match message, banner_type, expiration with
          | None, None, None => raise (ValueError no_fields_message)
          | _, _, _ => ret tt
          end ;;
     expiration_iso8601 <- normalize_expiration expiration ;;
     existing_entries <-
       setting_list "host" GLOBAL_MESSAGE_BANNERS_KEY conn ;;
     match message_id with
     | None => raise (ValueError (not_found_message "None"))
     | Some message_id =>
         match existing_entries !! message_id with
         | None => raise (ValueError (not_found_message message_id))
         | Some existing_entry =>
             let setting_key := _get_banner_key message_id in
             let e := {[ "message" := jvalue_of message ]} in
             let e := set_or_carry "message" message existing_entry e in
             let e := set_or_carry "level" banner_type existing_entry e in
             let e := set_or_carry "expirationDate" expiration_iso8601
                                   existing_entry e in
             let entries := {[ setting_key := e ]} in
             _ <- setting_add_or_update entries USER_SCOPE_HOST conn ;;
             ret {[ message_id := e ]}
         end
     end).

Definition banner_remove (message_id : string) (conn : connection)
  : M St unit :=
  try_except
    (let setting_key := _get_banner_key message_id in
     setting_remove setting_key "host" conn).

(** A session at the command line: commands run one after the other,
    each on the world the previous one left. *)
Inductive command : Type :=
| List_ (conn : connection)
| Show (message_id : string) (conn : connection)
| Add (message : string) (banner_type message_id expiration : option string)
      (conn : connection)
| Update (message banner_type message_id expiration : option string)
         (conn : connection)
| Remove (message_id : string) (conn : connection).

Definition run (c : command) (w : world St) : world St :=
  match c with
  | List_ conn => snd (banner_list conn w)
  | Show message_id conn => snd (banner_show message_id conn w)
  | Add message banner_type message_id expiration conn =>
      snd (banner_add message banner_type message_id expiration conn w)
  | Update message banner_type message_id expiration conn =>
      snd (banner_update message banner_type message_id expiration conn w)
  | Remove message_id conn => snd (banner_remove message_id conn w)
  end.

Definition run_all (cs : list command) (w : world St) : world St :=
  fold_left (fun w c => run c w) cs w.

(** ** Facts about strings and identifiers *)

Lemma string_length_app (a b : string) :
  String.length (a +:+ b) = (String.length a + String.length b)%nat.
Proof. induction a as [|c a IH]; simpl; [reflexivity | now rewrite IH]. Qed.

Lemma string_length_of_list (l : list ascii) :
  String.length (string_of_list_ascii l) = length l.
Proof. induction l as [|c l IH]; simpl; [reflexivity | now rewrite IH]. Qed.

Lemma string_of_list_ascii_inj (l1 l2 : list ascii) :
  string_of_list_ascii l1 = string_of_list_ascii l2 -> l1 = l2.
Proof.
  intros E. apply (f_equal list_ascii_of_string) in E.
  now rewrite !list_ascii_of_string_of_list_ascii in E.
Qed.

Lemma banner_key_length (message_id : string) :
  String.length (_get_banner_key message_id) =
  (String.length GLOBAL_MESSAGE_BANNERS_KEY + 1 + String.length message_id)%nat.
Proof. unfold _get_banner_key. now rewrite !string_length_app. Qed.

Lemma banner_key_neq (message_id : string) :
  _get_banner_key message_id <> message_id.
Proof.
  intros E. apply (f_equal String.length) in E.
  rewrite banner_key_length in E. lia.
Qed.

Lemma banner_key_inj (id1 id2 : string) :
  _get_banner_key id1 = _get_banner_key id2 -> id1 = id2.
Proof. unfold _get_banner_key. intros E. now apply String.app_inj in E. Qed.

Lemma length_hex_fixed (width : nat) (n : Z) :
  length (hex_fixed width n) = width.
Proof.
  revert n. induction width as [|width IH]; intros n; simpl; [reflexivity|].
  rewrite length_app, IH. simpl. lia.
Qed.

Lemma hex_value_digit (d : Z) : 0 <= d < 16 -> hex_value (hex_digit d) = d.
Proof.
  intros Hd.
  assert (d = 0 \/ d = 1 \/ d = 2 \/ d = 3 \/ d = 4 \/ d = 5 \/ d = 6 \/
          d = 7 \/ d = 8 \/ d = 9 \/ d = 10 \/ d = 11 \/ d = 12 \/ d = 13 \/
          d = 14 \/ d = 15) as Hcases by lia.
  repeat (destruct Hcases as [-> | Hcases]; [reflexivity|]).
  now subst d.
Qed.

Lemma hex_fixed_inj (width : nat) (a b : Z) :
  0 <= a < 16 ^ Z.of_nat width -> 0 <= b < 16 ^ Z.of_nat width ->
  hex_fixed width a = hex_fixed width b -> a = b.
Proof.
  revert a b. induction width as [|width IH]; intros a b Ha Hb E.
  - simpl in Ha, Hb. lia.
  - simpl in E. apply app_inj_tail in E as [Ehigh Elow].
    rewrite Nat2Z.inj_succ, Z.pow_succ_r in Ha, Hb by lia.
    assert (a / 16 = b / 16) as Hq.
    { apply IH; [| | exact Ehigh].
      - split; [apply Z.div_pos; lia | apply Z.div_lt_upper_bound; lia].
      - split; [apply Z.div_pos; lia | apply Z.div_lt_upper_bound; lia]. }
    assert (a mod 16 = b mod 16) as Hr.
    { rewrite <- (hex_value_digit (a mod 16)), <- (hex_value_digit (b mod 16))
        by (apply Z.mod_pos_bound; lia).
      now rewrite Elow. }
    rewrite (Z.div_mod a 16), (Z.div_mod b 16) by lia. congruence.
Qed.

Lemma hex_digit_not_dash (d : Z) : not_dash (hex_digit d) = true.
Proof.
  unfold hex_digit.
  repeat match goal with
         | |- context [match ?x with _ => _ end] => destruct x
         end; reflexivity.
Qed.

Lemma hex_fixed_not_dash (width : nat) (n : Z) :
  forallb not_dash (hex_fixed width n) = true.
Proof.
  revert n. induction width as [|width IH]; intros n; simpl; [reflexivity|].
  rewrite forallb_app, IH. simpl. now rewrite hex_digit_not_dash.
Qed.

Lemma forallb_take {A} (f : A -> bool) (n : nat) (l : list A) :
  forallb f l = true -> forallb f (take n l) = true.
Proof.
  revert n. induction l as [|x l IH]; intros [|n]; simpl; try reflexivity.
  intros [Hx Hl]%andb_true_iff. now rewrite Hx, IH.
Qed.

Lemma forallb_drop {A} (f : A -> bool) (n : nat) (l : list A) :
  forallb f l = true -> forallb f (drop n l) = true.
Proof.
  revert n. induction l as [|x l IH]; intros [|n]; simpl; try reflexivity.
  - trivial.
  - intros [Hx Hl]%andb_true_iff. now apply IH.
Qed.

Lemma ungroup_hex (hex : list ascii) :
  forallb not_dash hex = true ->
  List.filter not_dash
    (take 8 hex ++ "-"%char :: take 4 (drop 8 hex) ++ "-"%char ::
     take 4 (drop 12 hex) ++ "-"%char :: take 4 (drop 16 hex) ++ "-"%char ::
     drop 20 hex) = hex.
Proof.
  intros Hhex.
  repeat (rewrite List.filter_app; cbn [List.filter]).
  change (not_dash "-") with false. cbv iota.
  rewrite !forallb_filter_id
    by (apply forallb_take || idtac; apply forallb_drop || idtac;
        first [exact Hhex | now apply forallb_drop]).
  change 20%nat with (16 + 4)%nat. rewrite <- drop_drop, take_drop.
  change 16%nat with (12 + 4)%nat. rewrite <- drop_drop, take_drop.
  change 12%nat with (8 + 4)%nat. rewrite <- drop_drop, take_drop.
  apply take_drop.
Qed.

Lemma uuid_str_inj (a b : Z) :
  0 <= a < 2 ^ 128 -> 0 <= b < 2 ^ 128 -> uuid_str a = uuid_str b -> a = b.
Proof.
  intros Ha Hb E. unfold uuid_str in E.
  apply string_of_list_ascii_inj in E.
  apply (f_equal (List.filter not_dash)) in E.
  rewrite !ungroup_hex in E by apply hex_fixed_not_dash.
  apply (hex_fixed_inj 32); [exact Ha | exact Hb | exact E].
Qed.

Lemma uuid_str_length (n : Z) : String.length (uuid_str n) = 36%nat.
Proof.
  unfold uuid_str. rewrite string_length_of_list.
  repeat (rewrite length_app; cbn [length]).
  rewrite !length_take, !length_drop, !length_hex_fixed. reflexivity.
Qed.

(** What [uuid4] makes of a draw: the random bits it keeps, and the bits
    it sets. *)
Lemma uuid_of_random_bits (r : Z) :
  0 <= r < 2 ^ 128 ->
  uuid_of_random r = Z.lor (Z.land r uuid_random_bits) uuid_fixed_bits.
Proof.
  intros Hr. unfold uuid_of_random, uuid_random_bits, uuid_fixed_bits.
  rewrite <- (Z.mod_small r (2 ^ 128)) at 1 by exact Hr.
  rewrite <- Z.land_ones by lia.
  rewrite Z.land_lor_distr_l, <- !Z.land_assoc, <- Z.lor_assoc.
  f_equal.
Qed.

Lemma uuid_of_random_range (r : Z) :
  0 <= r < 2 ^ 128 -> 0 <= uuid_of_random r < 2 ^ 128.
Proof.
  intros Hr. rewrite uuid_of_random_bits by exact Hr.
  assert (Z.land (Z.lor (Z.land r uuid_random_bits) uuid_fixed_bits)
                 (Z.ones 128)
          = Z.lor (Z.land r uuid_random_bits) uuid_fixed_bits) as E.
  { rewrite Z.land_lor_distr_l, <- Z.land_assoc. reflexivity. }
  rewrite <- E, Z.land_ones by lia. apply Z.mod_pos_bound. lia.
Qed.

Lemma uuid_of_random_keeps (r : Z) :
  0 <= r < 2 ^ 128 ->
  Z.land (uuid_of_random r) uuid_random_bits = Z.land r uuid_random_bits.
Proof.
  intros Hr. rewrite uuid_of_random_bits by exact Hr.
  rewrite Z.land_lor_distr_l, <- Z.land_assoc.
  change (Z.land uuid_fixed_bits uuid_random_bits) with 0.
  change (Z.land uuid_random_bits uuid_random_bits) with uuid_random_bits.
  apply Z.lor_0_r.
Qed.

Lemma uuid_collision (r1 r2 : Z) :
  0 <= r1 < 2 ^ 128 -> 0 <= r2 < 2 ^ 128 ->
  uuid_str (uuid_of_random r1) = uuid_str (uuid_of_random r2) <->
  Z.land r1 uuid_random_bits = Z.land r2 uuid_random_bits.
Proof.
  intros H1 H2. split.
  - intros E. apply uuid_str_inj in E; try now apply uuid_of_random_range.
    rewrite <- (uuid_of_random_keeps r1), <- (uuid_of_random_keeps r2)
      by assumption.
    now rewrite E.
  - intros E. now rewrite !uuid_of_random_bits, E by assumption.
Qed.

(** ** The commands, one by one *)

Ltac run_command :=
  unfold try_except, bind, normalize_expiration, lift_result,
         setting_list, setting_add_or_update, setting_remove, ret, raise.

Lemma banner_show_shape (message_id : string) (conn : connection)
    (w : world St) :
  snd (banner_show message_id conn w) =
  World (snd (store_list "host" GLOBAL_MESSAGE_BANNERS_KEY conn (remote w)))
        (calls w ++ [SettingList "host" GLOBAL_MESSAGE_BANNERS_KEY conn])
        (entropy w) (drawn w).
Proof.
  unfold banner_show. run_command.
  destruct (store_list "host" GLOBAL_MESSAGE_BANNERS_KEY conn (remote w))
    as [[e | existing_entries] s']; simpl; [reflexivity|].
  destruct (existing_entries !! message_id); reflexivity.
Qed.

(** C7: [show] makes one call, the listing of the whole namespace, and
    answers from the mapping it returns: the singleton [{id: value}] when
    the identifier is a key of it, the error naming the identifier when
    it is not, and the translated service error when the listing fails.
    It issues no other read and no write. *)
Theorem banner_show_spec (message_id : string) (conn : connection)
    (w : world St) :
  banner_show message_id conn w =
  (match fst (store_list "host" GLOBAL_MESSAGE_BANNERS_KEY conn (remote w)) with
   | inl e => inl (on_service_error e)
   | inr existing_entries =>
       match existing_entries !! message_id with
       | Some value => inr {[ message_id := value ]}
       | None =>
           inl (ValueError
                  ("The following banner was not found: " +:+ message_id))
       end
   end,
   World (snd (store_list "host" GLOBAL_MESSAGE_BANNERS_KEY conn (remote w)))
         (calls w ++ [SettingList "host" GLOBAL_MESSAGE_BANNERS_KEY conn])
         (entropy w) (drawn w)).
Proof.
  unfold banner_show. run_command.
  destruct (store_list "host" GLOBAL_MESSAGE_BANNERS_KEY conn (remote w))
    as [[e | existing_entries] s']; simpl; [reflexivity|].
  destruct (existing_entries !! message_id); reflexivity.
Qed.

(** C2: [update] with no message, no type and no expiration fails with
    the error that names the three flags and leaves the world as it was:
    no call reaches the Settings Store, whatever it holds and whatever
    the identifier. *)
Theorem banner_update_no_fields (message_id : option string)
    (conn : connection) (w : world St) :
  banner_update None None message_id None conn w =
    (inl (ValueError
            "At least one of the following arguments need to be supplied: --message, --type, --expiration."),
     w)
  /\ mentions "--message" no_fields_message = true
  /\ mentions "--type" no_fields_message = true
  /\ mentions "--expiration" no_fields_message = true.
Proof. repeat split. Qed.

(** C4: when the Date Normalizer raises on the expiration given, [add]
    and [update] raise that error and leave the world as it was: no call
    reaches the Settings Store, so its state is unchanged. *)
Theorem unparseable_expiration_fails_first (message : string)
    (new_message banner_type message_id : option string) (value : string)
    (conn : connection) (w : world St) (e : exn) :
  convert_date_string_to_iso8601 value "expiration" = inl e ->
  banner_add message banner_type message_id (Some value) conn w
    = (inl (on_service_error e), w)
  /\ banner_update new_message banner_type message_id (Some value) conn w
    = (inl (on_service_error e), w).
Proof.
  intros Hbad. split.
  - unfold banner_add. run_command. unfold normalized. now rewrite Hbad.
  - unfold banner_update. run_command. unfold normalized. rewrite Hbad.
    now destruct new_message, banner_type.
Qed.

(** C3: [update] with a field to change and an expiration that
    normalizes, on an identifier that is no key of the listing fetched,
    fails with the error naming the identifier after that one read: no
    write follows, whichever fields were given. *)
Theorem banner_update_not_found
    (message banner_type message_id expiration : option string)
    (conn : connection) (w : world St) (iso : option string)
    (existing_entries : entries_map) (s' : St) :
  is_Some message \/ is_Some banner_type \/ is_Some expiration ->
  normalized expiration = inr iso ->
  store_list "host" GLOBAL_MESSAGE_BANNERS_KEY conn (remote w)
    = (inr existing_entries, s') ->
  listed existing_entries message_id = None ->
  banner_update message banner_type message_id expiration conn w =
    (inl (ValueError ("The following banner was not found: "
                      +:+ percent_s message_id)),
     World s' (calls w ++ [SettingList "host" GLOBAL_MESSAGE_BANNERS_KEY conn])
           (entropy w) (drawn w)).
Proof.
  intros Hsome Hiso Hlist Habsent.
  assert (match message, banner_type, expiration with
          | None, None, None => false
          | _, _, _ => true
          end = true) as Hgiven.
  { destruct Hsome as [[? Hm] | [[? Hm] | [? Hm]]]; rewrite Hm;
      now destruct message, banner_type. }
  unfold banner_update. run_command.
  destruct message, banner_type, expiration; try discriminate Hgiven;
    cbv beta iota; rewrite Hiso, Hlist;
    destruct message_id as [k|]; simpl in *; try rewrite Habsent;
    reflexivity.
Qed.

(** ** What [add] and [update] write *)

Lemma set_if_given_lookup (key : string) (value : option string) (d : entry) :
  set_if_given key value d !! key
  = match value with Some v => Some (JString v) | None => d !! key end.
Proof. destruct value; simpl; [apply lookup_insert_eq | reflexivity]. Qed.

Lemma set_if_given_lookup_ne (key k : string) (value : option string)
    (d : entry) :
  key <> k -> set_if_given key value d !! k = d !! k.
Proof. intros Hne. destruct value; simpl; [now apply lookup_insert_ne | reflexivity]. Qed.

Lemma set_or_carry_lookup (key : string) (value : option string)
    (existing_entry d : entry) :
  set_or_carry key value existing_entry d !! key
  = match value with
    | Some v => Some (JString v)
    | None =>
        match existing_entry !! key with
        | Some old => Some old
        | None => d !! key
        end
    end.
Proof.
  unfold set_or_carry. destruct value; [apply lookup_insert_eq|].
  destruct (existing_entry !! key); [apply lookup_insert_eq | reflexivity].
Qed.

Lemma set_or_carry_lookup_ne (key k : string) (value : option string)
    (existing_entry d : entry) :
  key <> k -> set_or_carry key value existing_entry d !! k = d !! k.
Proof.
  intros Hne. unfold set_or_carry. destruct value; [now apply lookup_insert_ne|].
  destruct (existing_entry !! key); [now apply lookup_insert_ne | reflexivity].
Qed.

Lemma set_if_given_shaped (key : string) (value : option string) (d : entry) :
  key ∈ banner_fields -> banner_shaped d ->
  banner_shaped (set_if_given key value d).
Proof.
  unfold banner_shaped. intros Hkey Hd. destruct value; simpl; [|exact Hd].
  rewrite dom_insert_L. apply union_least; [|exact Hd].
  now apply singleton_subseteq_l.
Qed.

Lemma set_or_carry_shaped (key : string) (value : option string)
    (existing_entry d : entry) :
  key ∈ banner_fields -> banner_shaped d ->
  banner_shaped (set_or_carry key value existing_entry d).
Proof.
  unfold banner_shaped, set_or_carry. intros Hkey Hd.
  assert (forall v : jvalue, dom (<[ key := v ]> d) ⊆ banner_fields) as Hins.
  { intros v. rewrite dom_insert_L. apply union_least; [|exact Hd].
    now apply singleton_subseteq_l. }
  destruct value; [apply Hins|].
  destruct (existing_entry !! key); [apply Hins | exact Hd].
Qed.

Lemma message_only_shaped (v : jvalue) :
  banner_shaped ({[ "message" := v ]} : entry).
Proof.
  unfold banner_shaped. rewrite dom_singleton_L.
  apply singleton_subseteq_l. unfold banner_fields.
  apply elem_of_union_l, elem_of_union_l. now apply elem_of_singleton.
Qed.

Lemma default_id_run (message_id : option string) (w : world St) :
  default_id message_id w =
  (inr match message_id with
       | None | Some "" =>
           uuid_str (uuid_of_random (entropy w (drawn w) mod 2 ^ 128))
       | Some given => given
       end,
   World (remote w) (calls w) (entropy w)
         match message_id with
         | None | Some "" => S (drawn w)
         | Some _ => drawn w
         end).
Proof. destruct w, message_id as [[|c given]|]; reflexivity. Qed.

(** The entry [add] builds, and the one call it makes. *)
Lemma banner_add_run (message : string)
    (banner_type message_id expiration : option string)
    (conn : connection) (w : world St) (iso : option string) :
  normalized expiration = inr iso ->
  let id := match message_id with
            | None | Some "" =>
                uuid_str (uuid_of_random (entropy w (drawn w) mod 2 ^ 128))
            | Some given => given
            end in
  let e := set_if_given "expirationDate" iso
             (set_if_given "level" banner_type
                {[ "message" := JString message ]}) in
  let entries := {[ _get_banner_key id := e ]} in
  banner_add message banner_type message_id expiration conn w =
  (match fst (store_add_or_update entries USER_SCOPE_HOST conn (remote w)) with
   | inl err => inl (on_service_error err)
   | inr _ => inr {[ id := e ]}
   end,
   World (snd (store_add_or_update entries USER_SCOPE_HOST conn (remote w)))
         (calls w ++ [SettingAddOrUpdate entries USER_SCOPE_HOST conn])
         (entropy w)
         match message_id with
         | None | Some "" => S (drawn w)
         | Some _ => drawn w
         end).
Proof.
  intros Hiso id e entries. unfold banner_add. run_command.
  rewrite Hiso, default_id_run. cbn [remote calls entropy drawn].
  fold id e entries.
  destruct (store_add_or_update entries USER_SCOPE_HOST conn (remote w))
    as [[err | []] s']; reflexivity.
Qed.

(** The entry [update] builds from the one it found, and the two calls
    it makes. *)
Lemma banner_update_run
    (message banner_type expiration : option string) (message_id : string)
    (conn : connection) (w : world St) (iso : option string)
    (existing_entries : entries_map) (existing_entry : entry) (s' : St) :
  is_Some message \/ is_Some banner_type \/ is_Some expiration ->
  normalized expiration = inr iso ->
  store_list "host" GLOBAL_MESSAGE_BANNERS_KEY conn (remote w)
    = (inr existing_entries, s') ->
  existing_entries !! message_id = Some existing_entry ->
  let e := set_or_carry "expirationDate" iso existing_entry
             (set_or_carry "level" banner_type existing_entry
                (set_or_carry "message" message existing_entry
                   {[ "message" := jvalue_of message ]})) in
  let entries := {[ _get_banner_key message_id := e ]} in
  banner_update message banner_type (Some message_id) expiration conn w =
  (match fst (store_add_or_update entries USER_SCOPE_HOST conn s') with
   | inl err => inl (on_service_error err)
   | inr _ => inr {[ message_id := e ]}
   end,
   World (snd (store_add_or_update entries USER_SCOPE_HOST conn s'))
         (calls w ++ [SettingList "host" GLOBAL_MESSAGE_BANNERS_KEY conn;
                      SettingAddOrUpdate entries USER_SCOPE_HOST conn])
         (entropy w) (drawn w)).
Proof.
  intros Hsome Hiso Hlist Hfound e entries.
  assert (match message, banner_type, expiration with
          | None, None, None => false
          | _, _, _ => true
          end = true) as Hgiven.
  { destruct Hsome as [[? Hm] | [[? Hm] | [? Hm]]]; rewrite Hm;
      now destruct message, banner_type. }
  unfold banner_update. run_command.
  destruct message, banner_type, expiration; try discriminate Hgiven;
    cbv beta iota; rewrite Hiso, Hlist; cbv beta iota; rewrite Hfound;
    cbn [remote calls entropy drawn]; fold e; fold entries;
    rewrite <- app_assoc;
    destruct (store_add_or_update entries USER_SCOPE_HOST conn s')
      as [[err | []] s'']; reflexivity.
Qed.

(** The fields of the entry [update] writes. *)
Lemma merged_entry_fields (message banner_type iso : option string)
    (existing_entry : entry) :
  let e := set_or_carry "expirationDate" iso existing_entry
             (set_or_carry "level" banner_type existing_entry
                (set_or_carry "message" message existing_entry
                   {[ "message" := jvalue_of message ]})) in
  e !! "message"
    = match message with
      | Some v => Some (JString v)
      | None =>
          match existing_entry !! "message" with
          | Some old => Some old
          | None => Some JNull
          end
      end
  /\ e !! "level"
    = match banner_type with
      | Some v => Some (JString v)
      | None => existing_entry !! "level"
      end
  /\ e !! "expirationDate"
    = match iso with
      | Some v => Some (JString v)
      | None => existing_entry !! "expirationDate"
      end.
Proof.
  intros e. subst e. repeat split.
  - rewrite !set_or_carry_lookup_ne, set_or_carry_lookup by discriminate.
    rewrite lookup_singleton_eq. now destruct message.
  - rewrite set_or_carry_lookup_ne, set_or_carry_lookup by discriminate.
    rewrite set_or_carry_lookup_ne by discriminate.
    rewrite lookup_singleton_ne by discriminate.
    destruct banner_type; [reflexivity|]. now destruct (existing_entry !! "level").
  - rewrite set_or_carry_lookup, !set_or_carry_lookup_ne by discriminate.
    rewrite lookup_singleton_ne by discriminate.
    destruct iso; [reflexivity|].
    now destruct (existing_entry !! "expirationDate").
Qed.

Lemma normalized_some (expiration iso : option string) :
  normalized expiration = inr iso -> (is_Some iso <-> is_Some expiration).
Proof.
  unfold normalized. destruct expiration as [value|].
  - destruct (convert_date_string_to_iso8601 value "expiration");
      intros [= <-]; split; eauto.
  - intros [= <-]. reflexivity.
Qed.

(** C5: [add] whose expiration, if any, normalizes makes exactly one call
    to the Settings Store, with no read before it: a write of one entry
    under the namespace key, a slash and the identifier, which is the
    identifier given when one that is not empty is given, and else the
    UUID of the 16 random bytes drawn. The entry has [message]; it has
    [level] exactly when a type was given and [expirationDate], the
    normalized expiration, exactly when an expiration was given; it has
    no other key. When the write returns, the command returns that entry
    under that identifier. *)
Theorem banner_add_writes_entry (message : string)
    (banner_type message_id expiration : option string)
    (conn : connection) (w : world St) (iso : option string) :
  normalized expiration = inr iso ->
  let id :=
    match message_id with
    | None | Some "" =>
        uuid_str (uuid_of_random (entropy w (drawn w) mod 2 ^ 128))
    | Some given => given
    end in
  exists e : entry,
    e !! "message" = Some (JString message)
    /\ e !! "level" = JString <$> banner_type
    /\ e !! "expirationDate" = JString <$> iso
    /\ (is_Some (e !! "level") <-> is_Some banner_type)
    /\ (is_Some (e !! "expirationDate") <-> is_Some expiration)
    /\ (forall field, field ∉ banner_fields -> e !! field = None)
    /\ calls (snd (banner_add message banner_type message_id expiration conn w))
       = calls w ++
         [SettingAddOrUpdate
            {[ (GLOBAL_MESSAGE_BANNERS_KEY +:+ "/") +:+ id := e ]} "host" conn]
    /\ remote (snd (banner_add message banner_type message_id expiration conn w))
       = snd (store_add_or_update
                {[ (GLOBAL_MESSAGE_BANNERS_KEY +:+ "/") +:+ id := e ]}
                "host" conn (remote w))
    /\ fst (banner_add message banner_type message_id expiration conn w)
       = match fst (store_add_or_update
                      {[ (GLOBAL_MESSAGE_BANNERS_KEY +:+ "/") +:+ id := e ]}
                      "host" conn (remote w)) with
         | inl err => inl (on_service_error err)
         | inr _ => inr {[ id := e ]}
         end.
Proof.
  intros Hiso id. subst id.
  pose proof (banner_add_run message banner_type message_id expiration
                conn w iso Hiso) as Hrun.
  cbv zeta in Hrun. rewrite Hrun. cbn [fst snd calls remote].
  eexists.
  assert (forall v : option string,
            is_Some (JString <$> v) <-> is_Some v) as Hfmap.
  { intros [v|]; simpl; split; intros [? ?]; eauto; discriminate. }
  split; [|split; [|split; [|split; [|split; [|split]]]]];
    [ | | | | | | split; [reflexivity | split; reflexivity] ].
  - rewrite !set_if_given_lookup_ne by discriminate.
    apply lookup_singleton_eq.
  - rewrite set_if_given_lookup_ne, set_if_given_lookup by discriminate.
    rewrite lookup_singleton_ne by discriminate. now destruct banner_type.
  - rewrite set_if_given_lookup, set_if_given_lookup_ne by discriminate.
    rewrite lookup_singleton_ne by discriminate. now destruct iso.
  - rewrite set_if_given_lookup_ne, set_if_given_lookup by discriminate.
    rewrite lookup_singleton_ne by discriminate.
    rewrite <- (Hfmap banner_type). now destruct banner_type.
  - rewrite set_if_given_lookup, set_if_given_lookup_ne by discriminate.
    rewrite lookup_singleton_ne by discriminate.
    rewrite <- (normalized_some _ _ Hiso), <- (Hfmap iso). now destruct iso.
  - intros field Hfield.
    assert (field <> "message") as Hmessage.
    { intros ->. apply Hfield. unfold banner_fields.
      apply elem_of_union_l, elem_of_union_l. now apply elem_of_singleton. }
    assert (field <> "level") as Hlevel.
    { intros ->. apply Hfield. unfold banner_fields.
      apply elem_of_union_l, elem_of_union_r. now apply elem_of_singleton. }
    assert (field <> "expirationDate") as Hexpiration.
    { intros ->. apply Hfield. unfold banner_fields.
      apply elem_of_union_r. now apply elem_of_singleton. }
    rewrite !set_if_given_lookup_ne by congruence.
    apply lookup_singleton_ne. congruence.
Qed.

(** C6: [add] uses a non-empty identifier as it is given. With no
    identifier, or the empty one, it takes 16 random bytes and uses the
    UUID made of them, a string of 36 characters; two such calls in a row
    take two draws, and their identifiers are equal only when the draws
    agree on all 122 bits a UUID keeps. Each call writes under the
    namespaced key of its identifier and, when the write returns, returns
    its entry under that identifier. *)
Theorem banner_add_identifier (message1 message2 : string)
    (type1 type2 id1 id2 expiration1 expiration2 : option string)
    (conn : connection) (w : world St) (iso1 iso2 : option string) :
  normalized expiration1 = inr iso1 ->
  normalized expiration2 = inr iso2 ->
  let first := banner_add message1 type1 id1 expiration1 conn w in
  let second := banner_add message2 type2 id2 expiration2 conn (snd first) in
  let returns (run : (exn + entries_map) * world St) (before : world St)
              (id : string) :=
    exists e : entry,
      calls (snd run) = calls before ++
        [SettingAddOrUpdate {[ _get_banner_key id := e ]} USER_SCOPE_HOST conn]
      /\ fst run =
         match fst (store_add_or_update {[ _get_banner_key id := e ]}
                      USER_SCOPE_HOST conn (remote before)) with
         | inl err => inl (on_service_error err)
         | inr _ => inr {[ id := e ]}
         end in
  let draw1 := entropy w (drawn w) mod 2 ^ 128 in
  let draw2 := entropy w (S (drawn w)) mod 2 ^ 128 in
  (forall given, id1 = Some given -> given <> "" ->
     returns first w given /\ drawn (snd first) = drawn w)
  /\ (id1 = None \/ id1 = Some "" ->
      let fresh1 := uuid_str (uuid_of_random draw1) in
      returns first w fresh1
      /\ String.length fresh1 = 36%nat
      /\ fresh1 <> ""
      /\ (id2 = None \/ id2 = Some "" ->
          let fresh2 := uuid_str (uuid_of_random draw2) in
          returns second (snd first) fresh2
          /\ (fresh1 = fresh2 <->
              Z.land draw1 uuid_random_bits = Z.land draw2 uuid_random_bits))).
Proof.
  intros Hiso1 Hiso2 first second returns draw1 draw2.
  pose proof (banner_add_run message1 type1 id1 expiration1 conn w iso1 Hiso1)
    as Hfirst.
  cbv zeta in Hfirst. fold first in Hfirst.
  pose proof (banner_add_run message2 type2 id2 expiration2 conn (snd first)
                iso2 Hiso2) as Hsecond.
  cbv zeta in Hsecond. fold second in Hsecond.
  assert (0 <= draw1 < 2 ^ 128) as Hdraw1 by (apply Z.mod_pos_bound; lia).
  assert (0 <= draw2 < 2 ^ 128) as Hdraw2 by (apply Z.mod_pos_bound; lia).
  split.
  - intros given -> Hgiven. rewrite Hfirst. unfold returns.
    destruct given as [|c given]; [contradiction|]. cbn [fst snd calls remote drawn].
    split; [eexists; split; reflexivity | reflexivity].
  - intros Hnone1 fresh1.
    assert (first =
            (match fst (store_add_or_update
                          {[ _get_banner_key fresh1 :=
                               set_if_given "expirationDate" iso1
                                 (set_if_given "level" type1
                                    {[ "message" := JString message1 ]}) ]}
                          USER_SCOPE_HOST conn (remote w)) with
             | inl err => inl (on_service_error err)
             | inr _ => inr {[ fresh1 :=
                               set_if_given "expirationDate" iso1
                                 (set_if_given "level" type1
                                    {[ "message" := JString message1 ]}) ]}
             end,
             World (snd (store_add_or_update
                          {[ _get_banner_key fresh1 :=
                               set_if_given "expirationDate" iso1
                                 (set_if_given "level" type1
                                    {[ "message" := JString message1 ]}) ]}
                          USER_SCOPE_HOST conn (remote w)))
                   (calls w ++
                    [SettingAddOrUpdate
                       {[ _get_banner_key fresh1 :=
                            set_if_given "expirationDate" iso1
                              (set_if_given "level" type1
                                 {[ "message" := JString message1 ]}) ]}
                       USER_SCOPE_HOST conn])
                   (entropy w) (S (drawn w)))) as Hfirst'.
    { rewrite Hfirst. now destruct Hnone1 as [-> | ->]. }
    assert (String.length fresh1 = 36%nat) as Hlen by apply uuid_str_length.
    split; [|split; [exact Hlen | split]].
    + unfold returns. rewrite Hfirst'. cbn [fst snd calls].
      eexists; split; reflexivity.
    + intros E. rewrite E in Hlen. discriminate Hlen.
    + intros Hnone2 fresh2. split.
      * assert (entropy (snd first) = entropy w) as Hentropy
          by now rewrite Hfirst'.
        assert (drawn (snd first) = S (drawn w)) as Hdrawn
          by now rewrite Hfirst'.
        rewrite Hentropy, Hdrawn in Hsecond. fold draw2 fresh2 in Hsecond.
        unfold returns. rewrite Hsecond. cbn [fst snd calls].
        destruct Hnone2 as [-> | ->]; eexists; split; reflexivity.
      * apply uuid_collision; assumption.
Qed.

(** ** Every write has the shape of a banner *)

Lemma field_message : "message" ∈ banner_fields.
Proof.
  unfold banner_fields.
  apply elem_of_union_l, elem_of_union_l. now apply elem_of_singleton.
Qed.

Lemma field_level : "level" ∈ banner_fields.
Proof.
  unfold banner_fields.
  apply elem_of_union_l, elem_of_union_r. now apply elem_of_singleton.
Qed.

Lemma field_expiration : "expirationDate" ∈ banner_fields.
Proof. unfold banner_fields. apply elem_of_union_r. now apply elem_of_singleton. Qed.

Lemma added_entry_shaped (message : string) (banner_type iso : option string) :
  banner_shaped
    (set_if_given "expirationDate" iso
       (set_if_given "level" banner_type {[ "message" := JString message ]})).
Proof.
  apply set_if_given_shaped; [apply field_expiration|].
  apply set_if_given_shaped; [apply field_level|].
  apply message_only_shaped.
Qed.

Lemma merged_entry_shaped (message banner_type iso : option string)
    (existing_entry : entry) :
  banner_shaped
    (set_or_carry "expirationDate" iso existing_entry
       (set_or_carry "level" banner_type existing_entry
          (set_or_carry "message" message existing_entry
             {[ "message" := jvalue_of message ]}))).
Proof.
  apply set_or_carry_shaped; [apply field_expiration|].
  apply set_or_carry_shaped; [apply field_level|].
  apply set_or_carry_shaped; [apply field_message|].
  apply message_only_shaped.
Qed.

Lemma single_write_shaped (key user_scope : string) (e : entry)
    (conn : connection) :
  banner_shaped e ->
  writes_banner_shaped (SettingAddOrUpdate {[ key := e ]} user_scope conn).
Proof. intros He. simpl. now apply map_Forall_singleton. Qed.

Ltac no_new_call :=
  exists []; split; [now rewrite app_nil_r | constructor].

Ltac new_calls :=
  eexists; split;
  [ first [reflexivity | symmetry; apply app_assoc]
  | repeat (constructor;
            try exact I;
            try (apply single_write_shaped;
                 first [apply added_entry_shaped | apply merged_entry_shaped])) ].

Lemma banner_add_appends (message : string)
    (banner_type message_id expiration : option string)
    (conn : connection) (w : world St) :
  exists new,
    calls (snd (banner_add message banner_type message_id expiration conn w))
      = calls w ++ new
    /\ Forall writes_banner_shaped new.
Proof.
  destruct (normalized expiration) as [e | iso] eqn:Hiso.
  - unfold banner_add. run_command. rewrite Hiso. no_new_call.
  - rewrite (banner_add_run _ _ _ _ _ _ iso Hiso). cbn [snd calls]. new_calls.
Qed.

Lemma banner_update_appends
    (message banner_type message_id expiration : option string)
    (conn : connection) (w : world St) :
  exists new,
    calls (snd (banner_update message banner_type message_id expiration conn w))
      = calls w ++ new
    /\ Forall writes_banner_shaped new.
Proof.
  destruct (decide (is_Some message \/ is_Some banner_type
                    \/ is_Some expiration)) as [Hsome | Hnone].
  - destruct (normalized expiration) as [e | iso] eqn:Hiso.
    { unfold banner_update. run_command.
      destruct message, banner_type, expiration; cbv beta iota;
        try rewrite Hiso; no_new_call. }
    destruct (store_list "host" GLOBAL_MESSAGE_BANNERS_KEY conn (remote w))
      as [[err | existing_entries] s'] eqn:Hlist.
    { unfold banner_update. run_command.
      destruct message, banner_type, expiration; cbv beta iota;
        try rewrite Hiso; try rewrite Hlist; cbn [snd calls];
        first [no_new_call | new_calls]. }
    destruct (listed existing_entries message_id) as [existing_entry|]
      eqn:Hlisted.
    + destruct message_id as [k|]; [|discriminate Hlisted].
      rewrite (banner_update_run _ _ _ _ _ _ iso _ _ _ Hsome Hiso Hlist Hlisted).
      cbn [snd calls]. new_calls.
    + unfold banner_update. run_command.
      destruct message, banner_type, expiration; cbv beta iota;
        try rewrite Hiso; try rewrite Hlist; cbv beta iota;
        destruct message_id as [k|];
        simpl in Hlisted; try rewrite Hlisted; cbn [snd calls];
        first [no_new_call | new_calls].
  - destruct message; [exfalso; apply Hnone; eauto|].
    destruct banner_type; [exfalso; apply Hnone; eauto|].
    destruct expiration; [exfalso; apply Hnone; eauto|].
    no_new_call.
Qed.

Lemma run_appends (c : command) (w : world St) :
  exists new,
    calls (run c w) = calls w ++ new /\ Forall writes_banner_shaped new.
Proof.
  destruct c; simpl.
  - unfold banner_list. run_command.
    destruct (store_list "host" GLOBAL_MESSAGE_BANNERS_KEY conn (remote w))
      as [[e | l] s']; cbn [snd calls]; new_calls.
  - rewrite banner_show_shape. cbn [snd calls]. new_calls.
  - apply banner_add_appends.
  - apply banner_update_appends.
  - unfold banner_remove. run_command.
    destruct (store_remove (_get_banner_key message_id) "host" conn (remote w))
      as [[e | []] s']; cbn [snd calls]; new_calls.
Qed.

(** C9: through any sequence of commands, every write sent to the
    Settings Store carries entries that are mappings with no key other
    than [message], [level] and [expirationDate]. *)
Theorem writes_are_banner_shaped (cs : list command) (w : world St) :
  exists new,
    calls (run_all cs w) = calls w ++ new
    /\ Forall writes_banner_shaped new.
Proof.
  revert w. induction cs as [|c cs IH]; intros w.
  - simpl. no_new_call.
  - destruct (run_appends c w) as (new1 & Hcalls1 & Hshaped1).
    destruct (IH (run c w)) as (new2 & Hcalls2 & Hshaped2).
    exists (new1 ++ new2). split.
    + change (run_all (c :: cs) w) with (run_all cs (run c w)).
      rewrite Hcalls2, Hcalls1. symmetry. apply app_assoc.
    + apply Forall_app. split; assumption.
Qed.

(** ** The two keys of a banner *)

(** C10: [show] and [update] look the identifier itself up in the
    listing they fetched; [remove], [add] and [update] address the
    Settings Store by the namespace key, a slash and the identifier; and
    that string is never the identifier. *)
Theorem lookup_key_is_not_store_key (message_id : string) :
  (forall conn (w : world St) existing_entries s',
     store_list "host" GLOBAL_MESSAGE_BANNERS_KEY conn (remote w)
       = (inr existing_entries, s') ->
     fst (banner_show message_id conn w)
     = match existing_entries !! message_id with
       | Some value => inr {[ message_id := value ]}
       | None => inl (ValueError (not_found_message message_id))
       end)
  /\ (forall message banner_type expiration conn (w : world St) iso
             existing_entries s',
        is_Some message \/ is_Some banner_type \/ is_Some expiration ->
        normalized expiration = inr iso ->
        store_list "host" GLOBAL_MESSAGE_BANNERS_KEY conn (remote w)
          = (inr existing_entries, s') ->
        match existing_entries !! message_id with
        | Some existing_entry =>
            exists e,
              calls (snd (banner_update message banner_type (Some message_id)
                            expiration conn w))
              = calls w ++
                [SettingList "host" GLOBAL_MESSAGE_BANNERS_KEY conn;
                 SettingAddOrUpdate
                   {[ (GLOBAL_MESSAGE_BANNERS_KEY +:+ "/") +:+ message_id := e ]}
                   "host" conn]
        | None =>
            banner_update message banner_type (Some message_id) expiration
              conn w
            = (inl (ValueError (not_found_message message_id)),
               World s' (calls w ++
                         [SettingList "host" GLOBAL_MESSAGE_BANNERS_KEY conn])
                     (entropy w) (drawn w))
        end)
  /\ (forall conn (w : world St),
        calls (snd (banner_remove message_id conn w))
        = calls w ++
          [SettingRemove ((GLOBAL_MESSAGE_BANNERS_KEY +:+ "/") +:+ message_id)
             "host" conn])
  /\ (forall message banner_type expiration conn (w : world St) iso,
        message_id <> "" ->
        normalized expiration = inr iso ->
        exists e,
          calls (snd (banner_add message banner_type (Some message_id)
                        expiration conn w))
          = calls w ++
            [SettingAddOrUpdate
               {[ (GLOBAL_MESSAGE_BANNERS_KEY +:+ "/") +:+ message_id := e ]}
               "host" conn])
  /\ _get_banner_key message_id
     = (GLOBAL_MESSAGE_BANNERS_KEY +:+ "/") +:+ message_id
  /\ _get_banner_key message_id <> message_id.
Proof.
  split; [|split; [|split; [|split; [|split]]]].
  - intros conn w existing_entries s' Hlist.
    unfold banner_show. run_command. rewrite Hlist. cbv beta iota.
    now destruct (existing_entries !! message_id).
  - intros message banner_type expiration conn w iso existing_entries s'
           Hsome Hiso Hlist.
    destruct (existing_entries !! message_id) as [existing_entry|] eqn:Hfound.
    + rewrite (banner_update_run _ _ _ _ _ _ iso _ _ _ Hsome Hiso Hlist Hfound).
      eexists. reflexivity.
    + assert (match message, banner_type, expiration with
              | None, None, None => false
              | _, _, _ => true
              end = true) as Hgiven.
      { destruct Hsome as [[? Hm] | [[? Hm] | [? Hm]]]; rewrite Hm;
          now destruct message, banner_type. }
      unfold banner_update. run_command.
      destruct message, banner_type, expiration; try discriminate Hgiven;
        cbv beta iota; rewrite Hiso, Hlist; cbv beta iota; rewrite Hfound;
        reflexivity.
  - intros conn w. unfold banner_remove. run_command.
    now destruct (store_remove (_get_banner_key message_id) "host" conn
                    (remote w)) as [[e | []] s'].
  - intros message banner_type expiration conn w iso Hid Hiso.
    rewrite (banner_add_run _ _ _ _ _ _ iso Hiso).
    destruct message_id as [|c rest]; [contradiction|].
    eexists. reflexivity.
  - reflexivity.
  - apply banner_key_neq.
Qed.

(** ** More on the commands *)

Lemma fields_given (message banner_type expiration : option string) :
  is_Some message \/ is_Some banner_type \/ is_Some expiration ->
  match message, banner_type, expiration with
  | None, None, None => false
  | _, _, _ => true
  end = true.
Proof.
  intros [[? Hm] | [[? Hm] | [? Hm]]]; rewrite Hm;
    now destruct message, banner_type.
Qed.

Lemma try_except_keeps_service_errors_in {A} (body : M St A) (w : world St)
    (msg : string) :
  fst (try_except body w) <> inl (VstsServiceError msg).
Proof.
  unfold try_except. destruct (body w) as [[e | a] w']; simpl; [|discriminate].
  destruct e; discriminate.
Qed.

(** X1: what each command sends to the Settings Store. [list] and [show]
    make one call, the listing of the namespace at scope [host];
    [remove] makes one call, the removal of the banner's namespaced key,
    with no read before it; [add] makes no call or one write of the
    banner's key; [update] makes no call, or the listing alone, or the
    listing and then one write of the key of the identifier it was
    given. No command makes more than two calls, and nothing but
    [remove] removes. *)
Theorem command_call_discipline (c : command) (w : world St) :
  match c with
  | List_ conn | Show _ conn =>
      calls (run c w)
      = calls w ++ [SettingList "host" GLOBAL_MESSAGE_BANNERS_KEY conn]
  | Remove message_id conn =>
      calls (run c w)
      = calls w ++ [SettingRemove (_get_banner_key message_id) "host" conn]
  | Add _ _ _ _ conn =>
      calls (run c w) = calls w
      \/ exists id e,
           calls (run c w)
           = calls w ++
             [SettingAddOrUpdate {[ _get_banner_key id := e ]} "host" conn]
  | Update _ _ message_id _ conn =>
      calls (run c w) = calls w
      \/ calls (run c w)
         = calls w ++ [SettingList "host" GLOBAL_MESSAGE_BANNERS_KEY conn]
      \/ exists id e,
           message_id = Some id
           /\ calls (run c w)
              = calls w ++
                [SettingList "host" GLOBAL_MESSAGE_BANNERS_KEY conn;
                 SettingAddOrUpdate {[ _get_banner_key id := e ]} "host" conn]
  end.
Proof.
  destruct c as [conn | message_id conn
                | message banner_type message_id expiration conn
                | message banner_type message_id expiration conn
                | message_id conn]; simpl.
  - unfold banner_list. run_command.
    now destruct (store_list "host" GLOBAL_MESSAGE_BANNERS_KEY conn (remote w))
      as [[e | l] s'].
  - now rewrite banner_show_shape.
  - destruct (normalized expiration) as [e | iso] eqn:Hiso.
    + left. unfold banner_add. run_command. now rewrite Hiso.
    + right. rewrite (banner_add_run _ _ _ _ _ _ iso Hiso).
      eexists _, _. reflexivity.
  - destruct (decide (is_Some message \/ is_Some banner_type
                      \/ is_Some expiration)) as [Hsome | Hnone].
    + pose proof (fields_given _ _ _ Hsome) as Hgiven.
      destruct (normalized expiration) as [e | iso] eqn:Hiso.
      { left. unfold banner_update. run_command.
        destruct message, banner_type, expiration; try discriminate Hgiven;
          cbv beta iota; now rewrite Hiso. }
      destruct (store_list "host" GLOBAL_MESSAGE_BANNERS_KEY conn (remote w))
        as [[err | existing_entries] s'] eqn:Hlist.
      { right; left. unfold banner_update. run_command.
        destruct message, banner_type, expiration; try discriminate Hgiven;
          cbv beta iota; now rewrite Hiso, Hlist. }
      destruct (listed existing_entries message_id) as [existing_entry|]
        eqn:Hlisted.
      * destruct message_id as [k|]; [|discriminate Hlisted].
        right; right.
        rewrite (banner_update_run _ _ _ _ _ _ iso _ _ _
                   Hsome Hiso Hlist Hlisted).
        eexists _, _. split; reflexivity.
      * right; left. unfold banner_update. run_command.
        destruct message, banner_type, expiration; try discriminate Hgiven;
          cbv beta iota; rewrite Hiso, Hlist; cbv beta iota;
          destruct message_id as [k|]; simpl in Hlisted;
          try rewrite Hlisted; reflexivity.
    + left.
      destruct message; [exfalso; apply Hnone; eauto|].
      destruct banner_type; [exfalso; apply Hnone; eauto|].
      destruct expiration; [exfalso; apply Hnone; eauto|].
      reflexivity.
  - unfold banner_remove. run_command.
    now destruct (store_remove (_get_banner_key message_id) "host" conn
                    (remote w)) as [[e | []] s'].
Qed.

(** X2: no command lets a service error of the Settings Store, or of
    any other collaborator, out as it is: whatever the store and the
    Date Normalizer do, the outcome of a command is never a
    [VstsServiceError]. *)
Theorem service_error_never_escapes (msg : string) (conn : connection)
    (w : world St) :
  fst (banner_list conn w) <> inl (VstsServiceError msg)
  /\ (forall message_id,
        fst (banner_show message_id conn w) <> inl (VstsServiceError msg))
  /\ (forall message banner_type message_id expiration,
        fst (banner_add message banner_type message_id expiration conn w)
        <> inl (VstsServiceError msg))
  /\ (forall message banner_type message_id expiration,
        fst (banner_update message banner_type message_id expiration conn w)
        <> inl (VstsServiceError msg))
  /\ (forall message_id,
        fst (banner_remove message_id conn w) <> inl (VstsServiceError msg)).
Proof.
  repeat split; intros; apply try_except_keeps_service_errors_in.
Qed.

(** X3: when the listing fails with a service error, [list], [show] and
    [update] (given a field to change and an expiration that normalizes)
    fail with a [CLIError] carrying the message of that error, and
    [update] stops there: it writes nothing. *)
Theorem listing_failure_is_reported (msg : string) (conn : connection)
    (w : world St) (s' : St) :
  store_list "host" GLOBAL_MESSAGE_BANNERS_KEY conn (remote w)
    = (inl (VstsServiceError msg), s') ->
  fst (banner_list conn w) = inl (CLIError msg)
  /\ (forall message_id,
        fst (banner_show message_id conn w) = inl (CLIError msg))
  /\ (forall message banner_type message_id expiration iso,
        is_Some message \/ is_Some banner_type \/ is_Some expiration ->
        normalized expiration = inr iso ->
        banner_update message banner_type message_id expiration conn w
        = (inl (CLIError msg),
           World s' (calls w ++
                     [SettingList "host" GLOBAL_MESSAGE_BANNERS_KEY conn])
                 (entropy w) (drawn w))).
Proof.
  intros Hlist. split; [|split].
  - unfold banner_list. run_command. now rewrite Hlist.
  - intros message_id. unfold banner_show. run_command. now rewrite Hlist.
  - intros message banner_type message_id expiration iso Hsome Hiso.
    pose proof (fields_given _ _ _ Hsome) as Hgiven.
    unfold banner_update. run_command.
    destruct message, banner_type, expiration; try discriminate Hgiven;
      cbv beta iota; now rewrite Hiso, Hlist.
Qed.

(** X4: when the Settings Store fails every write and every removal
    with a service error, [add] (given an expiration that normalizes)
    and [remove] fail with a [CLIError] carrying the message of that
    error. *)
Theorem write_failure_is_reported (msg : string) (conn : connection)
    (w : world St) :
  (forall entries,
     fst (store_add_or_update entries USER_SCOPE_HOST conn (remote w))
     = inl (VstsServiceError msg)) ->
  (forall key,
     fst (store_remove key "host" conn (remote w))
     = inl (VstsServiceError msg)) ->
  (forall message banner_type message_id expiration iso,
     normalized expiration = inr iso ->
     fst (banner_add message banner_type message_id expiration conn w)
     = inl (CLIError msg))
  /\ (forall message_id,
        fst (banner_remove message_id conn w) = inl (CLIError msg)).
Proof.
  intros Hwrite Hremove. split.
  - intros message banner_type message_id expiration iso Hiso.
    rewrite (banner_add_run _ _ _ _ _ _ iso Hiso). cbn [fst].
    now rewrite Hwrite.
  - intros message_id. unfold banner_remove. run_command.
    specialize (Hremove (_get_banner_key message_id)).
    destruct (store_remove (_get_banner_key message_id) "host" conn
                (remote w)) as [[e | []] s']; simpl in *; [|discriminate].
    now injection Hremove as ->.
Qed.

(** X5: [update] never takes a field away. When it finds the banner and
    writes, every one of [message], [level] and [expirationDate] that the
    banner had is in the entry written, whatever was given: an
    expiration date, once set, stays set through any update. *)
Theorem banner_update_never_unsets
    (message banner_type expiration : option string) (message_id : string)
    (conn : connection) (w : world St) (iso : option string)
    (existing_entries : entries_map) (existing_entry : entry) (s' : St) :
  is_Some message \/ is_Some banner_type \/ is_Some expiration ->
  normalized expiration = inr iso ->
  store_list "host" GLOBAL_MESSAGE_BANNERS_KEY conn (remote w)
    = (inr existing_entries, s') ->
  existing_entries !! message_id = Some existing_entry ->
  exists e,
    calls (snd (banner_update message banner_type (Some message_id)
                  expiration conn w))
    = calls w ++
      [SettingList "host" GLOBAL_MESSAGE_BANNERS_KEY conn;
       SettingAddOrUpdate {[ _get_banner_key message_id := e ]} "host" conn]
    /\ (forall field,
          field ∈ banner_fields ->
          is_Some (existing_entry !! field) -> is_Some (e !! field)).
Proof.
  intros Hsome Hiso Hlist Hfound.
  rewrite (banner_update_run _ _ _ _ _ _ iso _ _ _ Hsome Hiso Hlist Hfound).
  eexists. split; [reflexivity|].
  intros field Hfield [old Hold].
  destruct (merged_entry_fields message banner_type iso existing_entry)
    as (Hm & Hl & Hx).
  unfold banner_fields in Hfield.
  apply elem_of_union in Hfield as [Hfield | Hfield];
    [apply elem_of_union in Hfield as [Hfield | Hfield]|];
    apply elem_of_singleton in Hfield; subst field.
  - rewrite Hm, Hold. destruct message; eauto.
  - rewrite Hl, Hold. destruct banner_type; eauto.
  - rewrite Hx, Hold. destruct iso; eauto.
Qed.

(** X6: [update] of a banner that has a message, or with a new message
    given, writes and, if the write returns, returns the entry in which
    each of the three fields has the value given, if one was, and else
    the value the banner had, being absent if it had none; the entry has
    no other key, so whatever else the banner held is dropped. *)
Theorem banner_update_merges
    (message banner_type expiration : option string) (message_id : string)
    (conn : connection) (w : world St) (iso : option string)
    (existing_entries : entries_map) (existing_entry : entry) (s' : St) :
  is_Some message \/ is_Some (existing_entry !! "message") ->
  is_Some message \/ is_Some banner_type \/ is_Some expiration ->
  normalized expiration = inr iso ->
  store_list "host" GLOBAL_MESSAGE_BANNERS_KEY conn (remote w)
    = (inr existing_entries, s') ->
  existing_entries !! message_id = Some existing_entry ->
  exists e,
    (forall field new,
       (field, new) ∈ [("message", message); ("level", banner_type);
                       ("expirationDate", iso)] ->
       e !! field = match new with
                    | Some v => Some (JString v)
                    | None => existing_entry !! field
                    end)
    /\ (forall field, field ∉ banner_fields -> e !! field = None)
    /\ calls (snd (banner_update message banner_type (Some message_id)
                     expiration conn w))
       = calls w ++
         [SettingList "host" GLOBAL_MESSAGE_BANNERS_KEY conn;
          SettingAddOrUpdate {[ _get_banner_key message_id := e ]} "host" conn]
    /\ fst (banner_update message banner_type (Some message_id)
               expiration conn w)
       = match fst (store_add_or_update {[ _get_banner_key message_id := e ]}
                      "host" conn s') with
         | inl err => inl (on_service_error err)
         | inr _ => inr {[ message_id := e ]}
         end.
Proof.
  intros Hmessage Hsome Hiso Hlist Hfound.
  rewrite (banner_update_run _ _ _ _ _ _ iso _ _ _ Hsome Hiso Hlist Hfound).
  eexists. split; [|split; [|split; reflexivity]].
  - intros field new Hin.
    destruct (merged_entry_fields message banner_type iso existing_entry)
      as (Hm & Hl & Hx).
    apply elem_of_cons in Hin as [[= -> ->] | Hin];
      [|apply elem_of_cons in Hin as [[= -> ->] | Hin];
        [|apply list_elem_of_singleton in Hin as [= -> ->]]].
    + rewrite Hm. destruct message as [v|]; [reflexivity|].
      destruct Hmessage as [[? [=]] | [old Hold]]. now rewrite Hold.
    + exact Hl.
    + exact Hx.
  - intros field Hfield.
    apply not_elem_of_dom. intros Hdom. apply Hfield.
    now apply (merged_entry_shaped message banner_type iso existing_entry).
Qed.

(** X7: two banners share a key in the Settings Store only when they
    have the same identifier. *)
Theorem banner_key_one_to_one (id1 id2 : string) :
  _get_banner_key id1 = _get_banner_key id2 <-> id1 = id2.
Proof.
  split; [|now intros ->].
  unfold _get_banner_key. intros E. now apply String.app_inj in E.
Qed.

(** What it takes for [add] and for [update] to return. *)
Lemma banner_add_returns (message : string)
    (banner_type message_id expiration : option string)
    (conn : connection) (w : world St) (r : entries_map) :
  fst (banner_add message banner_type message_id expiration conn w) = inr r ->
  exists iso, normalized expiration = inr iso.
Proof.
  destruct (normalized expiration) as [e | iso] eqn:Hiso; [|eauto].
  unfold banner_add. run_command. rewrite Hiso. discriminate.
Qed.

Lemma banner_update_returns
    (message banner_type message_id expiration : option string)
    (conn : connection) (w : world St) (r : entries_map) :
  fst (banner_update message banner_type message_id expiration conn w)
    = inr r ->
  exists id iso existing_entries existing_entry s',
    message_id = Some id
    /\ (is_Some message \/ is_Some banner_type \/ is_Some expiration)
    /\ normalized expiration = inr iso
    /\ store_list "host" GLOBAL_MESSAGE_BANNERS_KEY conn (remote w)
       = (inr existing_entries, s')
    /\ existing_entries !! id = Some existing_entry.
Proof.
  destruct (decide (is_Some message \/ is_Some banner_type
                    \/ is_Some expiration)) as [Hsome | Hnone].
  - pose proof (fields_given _ _ _ Hsome) as Hgiven.
    destruct (normalized expiration) as [e | iso] eqn:Hiso.
    { unfold banner_update. run_command.
      destruct message, banner_type, expiration; try discriminate Hgiven;
        cbv beta iota; rewrite Hiso; discriminate. }
    destruct (store_list "host" GLOBAL_MESSAGE_BANNERS_KEY conn (remote w))
      as [[err | existing_entries] s'] eqn:Hlist.
    { unfold banner_update. run_command.
      destruct message, banner_type, expiration; try discriminate Hgiven;
        cbv beta iota; rewrite Hiso, Hlist; discriminate. }
    destruct (listed existing_entries message_id) as [existing_entry|]
      eqn:Hlisted.
    + destruct message_id as [k|]; [|discriminate Hlisted].
      intros _. exists k, iso, existing_entries, existing_entry, s'.
      repeat split; assumption.
    + unfold banner_update. run_command.
      destruct message, banner_type, expiration; try discriminate Hgiven;
        cbv beta iota; rewrite Hiso, Hlist; cbv beta iota;
        destruct message_id as [k|]; simpl in Hlisted;
        try rewrite Hlisted; discriminate.
  - destruct message; [exfalso; apply Hnone; eauto|].
    destruct banner_type; [exfalso; apply Hnone; eauto|].
    destruct expiration; [exfalso; apply Hnone; eauto|].
    discriminate.
Qed.

(** X8: [show] answers as [list] does: it fails as [list] fails, and
    else returns the one entry of the listing under the identifier, or
    the error naming the identifier when the listing has none. *)
Theorem banner_show_follows_list (message_id : string) (conn : connection)
    (w : world St) :
  fst (banner_show message_id conn w)
  = match fst (banner_list conn w) with
    | inl e => inl e
    | inr listing =>
        match listing !! message_id with
        | Some value => inr {[ message_id := value ]}
        | None =>
            inl (ValueError
                   ("The following banner was not found: " +:+ message_id))
        end
    end
  /\ snd (banner_show message_id conn w) = snd (banner_list conn w).
Proof.
  unfold banner_show, banner_list. run_command.
  destruct (store_list "host" GLOBAL_MESSAGE_BANNERS_KEY conn (remote w))
    as [[e | listing] s']; simpl; [now split|].
  now destruct (listing !! message_id).
Qed.

(** The store [update] leaves: the one it found, the one the listing
    left, or the one its write left. *)
Lemma banner_update_remote
    (message banner_type message_id expiration : option string)
    (conn : connection) (w : world St) :
  remote (snd (banner_update message banner_type message_id expiration
                 conn w)) = remote w
  \/ remote (snd (banner_update message banner_type message_id expiration
                    conn w))
     = snd (store_list "host" GLOBAL_MESSAGE_BANNERS_KEY conn (remote w))
  \/ exists id e,
       message_id = Some id
       /\ remote (snd (banner_update message banner_type message_id
                         expiration conn w))
          = snd (store_add_or_update {[ _get_banner_key id := e ]}
                   USER_SCOPE_HOST conn
                   (snd (store_list "host" GLOBAL_MESSAGE_BANNERS_KEY conn
                           (remote w)))).
Proof.
  destruct (decide (is_Some message \/ is_Some banner_type
                    \/ is_Some expiration)) as [Hsome | Hnone].
  - pose proof (fields_given _ _ _ Hsome) as Hgiven.
    destruct (normalized expiration) as [e | iso] eqn:Hiso.
    { left. unfold banner_update. run_command.
      destruct message, banner_type, expiration; try discriminate Hgiven;
        cbv beta iota; now rewrite Hiso. }
    destruct (store_list "host" GLOBAL_MESSAGE_BANNERS_KEY conn (remote w))
      as [[err | existing_entries] s'] eqn:Hlist.
    { right; left. unfold banner_update. run_command.
      destruct message, banner_type, expiration; try discriminate Hgiven;
        cbv beta iota; now rewrite Hiso, Hlist. }
    destruct (listed existing_entries message_id) as [existing_entry|]
      eqn:Hlisted.
    + destruct message_id as [k|]; [|discriminate Hlisted].
      right; right.
      rewrite (banner_update_run _ _ _ _ _ _ iso _ _ _
                 Hsome Hiso Hlist Hlisted).
      eexists _, _. split; reflexivity.
    + right; left. unfold banner_update. run_command.
      destruct message, banner_type, expiration; try discriminate Hgiven;
        cbv beta iota; rewrite Hiso, Hlist; cbv beta iota;
        destruct message_id as [k|]; simpl in Hlisted;
        try rewrite Hlisted; reflexivity.
  - left.
    destruct message; [exfalso; apply Hnone; eauto|].
    destruct banner_type; [exfalso; apply Hnone; eauto|].
    destruct expiration; [exfalso; apply Hnone; eauto|].
    reflexivity.
Qed.

End Banner.

(** ** The commands over the in-memory store *)

Lemma strip_prefix_app (p s : string) : MemStore.strip_prefix p (p +:+ s) = Some s.
Proof.
  induction p as [|a p IH]; simpl; [reflexivity|].
  now rewrite Ascii.eqb_refl.
Qed.

Lemma strip_prefix_some (p s rest : string) :
  MemStore.strip_prefix p s = Some rest -> s = p +:+ rest.
Proof.
  revert s. induction p as [|a p IH]; intros s; simpl.
  - now intros [= ->].
  - destruct s as [|b s]; [discriminate|].
    destruct (Ascii.eqb a b) eqn:Hab; [|discriminate].
    apply Ascii.eqb_eq in Hab as ->. intros Hrest.
    now rewrite (IH _ Hrest).
Qed.

(** The listing has an entry under a sub-key exactly when the store has
    one under the key with the prefix. *)
Lemma list_under_lookup (user_scope key sub : string) (st : MemStore.state) :
  MemStore.list_under user_scope key st !! sub
  = st !! (user_scope, (key +:+ "/") +:+ sub).
Proof.
  unfold MemStore.list_under.
  apply (map_fold_weak_ind
           (fun acc m => acc !! sub = m !! (user_scope, (key +:+ "/") +:+ sub))).
  - now rewrite !lookup_empty.
  - intros [sc k] v m acc Hfresh IH. unfold MemStore.collect. simpl.
    destruct (String.eqb sc user_scope) eqn:Hsc.
    + apply String.eqb_eq in Hsc as ->.
      destruct (MemStore.strip_prefix (key +:+ "/") k) as [sub'|] eqn:Hstrip.
      * apply strip_prefix_some in Hstrip as ->.
        destruct (decide (sub' = sub)) as [-> | Hne].
        -- now rewrite !lookup_insert_eq.
        -- rewrite !lookup_insert_ne; [exact IH | | exact Hne].
           intros [= E]. now apply String.app_inj in E.
      * rewrite lookup_insert_ne; [exact IH|].
        intros [= ->]. now rewrite strip_prefix_app in Hstrip.
    + rewrite lookup_insert_ne; [exact IH|].
      intros [= -> _]. now rewrite String.eqb_refl in Hsc.
Qed.

(** C8: over the in-memory Settings Store, [show] of an identifier on
    the store [remove] of that identifier left fails with the error
    naming the identifier, whatever the store held. *)
Theorem remove_then_show_not_found (key message_id : string)
    (conn : connection) (w : world MemStore.state) :
  fst (banner_remove key message_id conn w) = inr tt
  /\ fst (banner_show key message_id conn
            (snd (banner_remove key message_id conn w)))
     = inl (ValueError ("The following banner was not found: " +:+ message_id)).
Proof.
  split; [reflexivity|].
  unfold banner_show, banner_remove, try_except, bind, setting_list,
    setting_remove, raise, ret. simpl.
  rewrite list_under_lookup. unfold MemStore.remove, _get_banner_key.
  now rewrite lookup_delete_eq.
Qed.

(** ** The commands at work *)

(** C1: on a banner stored with a level and no message, [update] with
    only a new type finds the banner and writes an entry whose [message]
    is null: the key is there, with [None] for its value, where the
    banner had no message at all. *)
Theorem banner_update_level_only_writes_null_message :
  MemStore.list_under "host" MemStore.KEY (remote MemStore.level_only_world)
    = {[ "m1" := {[ "level" := JString "info" ]} ]}
  /\ banner_update MemStore.KEY MemStore.convert_date
       None (Some "warning") (Some "m1") None
       MemStore.no_conn MemStore.level_only_world
     = (inr {[ "m1" := {[ "message" := JNull; "level" := JString "warning" ]} ]},
        World
          {[ ("host", "GlobalMessageBanners/m1") :=
               {[ "message" := JNull; "level" := JString "warning" ]} ]}
          [SettingList "host" "GlobalMessageBanners" MemStore.no_conn;
           SettingAddOrUpdate
             {[ "GlobalMessageBanners/m1" :=
                  {[ "message" := JNull; "level" := JString "warning" ]} ]}
             "host" MemStore.no_conn]
          (entropy MemStore.level_only_world) 0).
Proof. split; vm_compute; reflexivity. Qed.

Lemma banner_update_not_found_witness :
  (is_Some (Some "Back at noon") \/ is_Some (@None string)
   \/ is_Some (@None string))
  /\ banner_update MemStore.KEY MemStore.convert_date
       (Some "Back at noon") None (Some "m1") None
       MemStore.no_conn MemStore.empty_world
     = (inl (ValueError "The following banner was not found: m1"),
        World ∅ [SettingList "host" MemStore.KEY MemStore.no_conn]
              (entropy MemStore.empty_world) 0).
Proof.
  split; [left; eauto|].
  apply (banner_update_not_found MemStore.KEY MemStore.convert_date
           (Some "Back at noon") None (Some "m1") None
           MemStore.no_conn MemStore.empty_world None ∅ ∅).
  - left. eauto.
  - reflexivity.
  - vm_compute. reflexivity.
  - reflexivity.
Defined.

Lemma unparseable_expiration_fails_first_witness :
  MemStore.convert_date "next week" "expiration"
    = inl (ValueError
             "The --expiration argument must be a valid ISO 8601 string")
  /\ banner_add MemStore.KEY MemStore.convert_date
       "Maintenance" None (Some "m1") (Some "next week")
       MemStore.no_conn MemStore.level_only_world
     = (inl (ValueError
               "The --expiration argument must be a valid ISO 8601 string"),
        MemStore.level_only_world)
  /\ banner_update MemStore.KEY MemStore.convert_date
       None None (Some "m1") (Some "next week")
       MemStore.no_conn MemStore.level_only_world
     = (inl (ValueError
               "The --expiration argument must be a valid ISO 8601 string"),
        MemStore.level_only_world).
Proof.
  split; [vm_compute; reflexivity|].
  apply (unparseable_expiration_fails_first MemStore.KEY MemStore.convert_date
           "Maintenance" None None (Some "m1") "next week"
           MemStore.no_conn MemStore.level_only_world
           (ValueError
              "The --expiration argument must be a valid ISO 8601 string")).
  vm_compute. reflexivity.
Defined.

Lemma banner_add_writes_entry_witness :
  normalized MemStore.convert_date (Some "2019-01-31")
    = inr (Some "2019-01-31T00:00:00")
  /\ exists e : entry,
      e !! "message" = Some (JString "Maintenance")
      /\ e !! "level" = JString <$> Some "warning"
      /\ e !! "expirationDate" = JString <$> Some "2019-01-31T00:00:00"
      /\ (is_Some (e !! "level") <-> is_Some (Some "warning"))
      /\ (is_Some (e !! "expirationDate") <-> is_Some (Some "2019-01-31"))
      /\ (forall field, field ∉ banner_fields -> e !! field = None)
      /\ calls (snd (banner_add MemStore.KEY MemStore.convert_date
                       "Maintenance" (Some "warning") (Some "m1")
                       (Some "2019-01-31") MemStore.no_conn
                       MemStore.empty_world))
         = calls MemStore.empty_world ++
           [SettingAddOrUpdate {[ (MemStore.KEY +:+ "/") +:+ "m1" := e ]}
              "host" MemStore.no_conn]
      /\ remote (snd (banner_add MemStore.KEY MemStore.convert_date
                        "Maintenance" (Some "warning") (Some "m1")
                        (Some "2019-01-31") MemStore.no_conn
                        MemStore.empty_world))
         = snd (store_add_or_update
                  {[ (MemStore.KEY +:+ "/") +:+ "m1" := e ]} "host"
                  MemStore.no_conn (remote MemStore.empty_world))
      /\ fst (banner_add MemStore.KEY MemStore.convert_date
                     "Maintenance" (Some "warning") (Some "m1")
                     (Some "2019-01-31") MemStore.no_conn
                     MemStore.empty_world)
         = match fst (store_add_or_update
                        {[ (MemStore.KEY +:+ "/") +:+ "m1" := e ]} "host"
                        MemStore.no_conn (remote MemStore.empty_world)) with
           | inl err => inl (on_service_error err)
           | inr _ => inr {[ "m1" := e ]}
           end.
Proof.
  split; [vm_compute; reflexivity|].
  apply (banner_add_writes_entry MemStore.KEY MemStore.convert_date
           "Maintenance" (Some "warning") (Some "m1") (Some "2019-01-31")
           MemStore.no_conn MemStore.empty_world
           (Some "2019-01-31T00:00:00")).
  vm_compute. reflexivity.
Defined.

Lemma banner_add_identifier_witness :
  normalized MemStore.convert_date None = inr None
  /\ (exists e,
        fst (banner_add MemStore.KEY MemStore.convert_date
               "First notice" None None None
               MemStore.no_conn MemStore.empty_world)
        = inr {[ "00000000-0000-4000-8000-000000000000" := e ]})
  /\ (exists e,
        fst (banner_add MemStore.KEY MemStore.convert_date
               "Second notice" None (Some "") None MemStore.no_conn
               (snd (banner_add MemStore.KEY MemStore.convert_date
                       "First notice" None None None
                       MemStore.no_conn MemStore.empty_world)))
        = inr {[ "00000000-0000-4000-8000-000000000001" := e ]})
  /\ "00000000-0000-4000-8000-000000000000"
     <> "00000000-0000-4000-8000-000000000001".
Proof.
  pose proof (banner_add_identifier MemStore.KEY MemStore.convert_date
                "First notice" "Second notice" None None None (Some "")
                None None MemStore.no_conn MemStore.empty_world None None
                eq_refl eq_refl) as [_ Hfresh].
  destruct (Hfresh (or_introl eq_refl))
    as ((e1 & _ & Hreturn1) & _ & _ & Hnext).
  destruct (Hnext (or_intror eq_refl)) as ((e2 & _ & Hreturn2) & Hsame).
  split; [reflexivity|].
  split; [exists e1; exact Hreturn1|].
  split; [exists e2; exact Hreturn2|].
  intros E. apply Hsame in E. vm_compute in E. discriminate E.
Defined.

(** ** Banners over the in-memory store *)

Lemma list_after_write (key id id' : string) (e : entry)
    (st : MemStore.state) :
  MemStore.list_under "host" key
    (MemStore.add_or_update {[ (key +:+ "/") +:+ id := e ]} "host" st) !! id'
  = if decide (id = id') then Some e
    else MemStore.list_under "host" key st !! id'.
Proof.
  rewrite !list_under_lookup. unfold MemStore.add_or_update.
  rewrite kmap_singleton, <- insert_union_singleton_l, lookup_insert.
  destruct (decide (id = id')) as [-> | Hne].
  - now rewrite decide_True.
  - rewrite decide_False; [reflexivity|].
    intros [= E]. now apply String.app_inj in E.
Qed.

Lemma show_on_mem_store (key id : string) (conn : connection)
    (w : world MemStore.state) :
  fst (banner_show key id conn w)
  = match MemStore.list_under "host" key (remote w) !! id with
    | Some value => inr {[ id := value ]}
    | None => inl (ValueError (not_found_message id))
    end.
Proof.
  unfold banner_show, try_except, bind, setting_list, ret, raise. simpl.
  now destruct (MemStore.list_under "host" key (remote w) !! id).
Qed.

(** X9: over the in-memory Settings Store, whatever [add] returns,
    [show] of the identifier it returned it under returns the same, and
    [list] has that entry under that identifier: whatever the store
    held under the identifier before is overwritten. *)
Theorem add_then_show (key : string)
    (convert : string -> string -> exn + string) (message : string)
    (banner_type message_id expiration : option string)
    (conn conn' : connection) (w : world MemStore.state)
    (r : entries_map) :
  fst (banner_add key convert message banner_type message_id expiration
         conn w) = inr r ->
  exists id e,
    r = {[ id := e ]}
    /\ e !! "message" = Some (JString message)
    /\ fst (banner_show key id conn'
              (snd (banner_add key convert message banner_type message_id
                      expiration conn w))) = inr r
    /\ exists listing,
         fst (banner_list key conn'
                (snd (banner_add key convert message banner_type message_id
                        expiration conn w))) = inr listing
         /\ listing !! id = Some e.
Proof.
  intros Hreturn.
  destruct (banner_add_returns _ _ _ _ _ _ _ _ _ Hreturn) as [iso Hiso].
  pose proof (banner_add_run key convert message banner_type message_id
                expiration conn w iso Hiso) as Hrun.
  cbv zeta in Hrun. rewrite Hrun in Hreturn |- *. simpl in Hreturn |- *.
  injection Hreturn as <-. eexists _, _. split; [reflexivity|].
  split; [|split].
  - rewrite !set_if_given_lookup_ne by discriminate.
    apply lookup_singleton_eq.
  - rewrite show_on_mem_store. cbn [remote].
    unfold _get_banner_key. rewrite list_after_write.
    now rewrite decide_True.
  - eexists. split; [reflexivity|].
    unfold _get_banner_key. rewrite list_after_write.
    now rewrite decide_True.
Qed.

(** X10: over the in-memory Settings Store, whatever [update] returns,
    [show] of the identifier then returns the same. *)
Theorem update_then_show (key : string)
    (convert : string -> string -> exn + string)
    (message banner_type message_id expiration : option string)
    (conn conn' : connection) (w : world MemStore.state)
    (r : entries_map) :
  fst (banner_update key convert message banner_type message_id expiration
         conn w) = inr r ->
  exists id,
    message_id = Some id
    /\ fst (banner_show key id conn'
              (snd (banner_update key convert message banner_type message_id
                      expiration conn w))) = inr r.
Proof.
  intros Hreturn.
  destruct (banner_update_returns _ _ _ _ _ _ _ _ _ Hreturn)
    as (id & iso & existing_entries & existing_entry & s'
        & -> & Hsome & Hiso & Hlist & Hfound).
  pose proof (banner_update_run key convert message banner_type expiration
                id conn w iso existing_entries existing_entry s'
                Hsome Hiso Hlist Hfound) as Hrun.
  cbv zeta in Hrun. rewrite Hrun in Hreturn |- *. simpl in Hreturn |- *.
  injection Hreturn as <-. exists id. split; [reflexivity|].
  rewrite show_on_mem_store. cbn [remote].
  unfold _get_banner_key. rewrite list_after_write.
  now rewrite decide_True.
Qed.

Lemma list_after_write_other (key id other : string) (e : entry)
    (st : MemStore.state) :
  id <> other ->
  MemStore.list_under "host" key
    (MemStore.add_or_update {[ (key +:+ "/") +:+ id := e ]} "host" st) !! other
  = MemStore.list_under "host" key st !! other.
Proof. intros Hne. rewrite list_after_write. now rewrite decide_False. Qed.

(** X11: over the in-memory Settings Store, a command on one banner
    leaves every other banner as [show] finds it: [add] for every
    identifier but the one it returns its entry under, [update] and
    [remove] for every identifier but the one they are given. *)
Theorem other_banners_untouched (key : string)
    (convert : string -> string -> exn + string)
    (conn conn' : connection) (w : world MemStore.state) (other : string) :
  (forall message banner_type message_id expiration,
     (forall r,
        fst (banner_add key convert message banner_type message_id
               expiration conn w) = inr r -> r !! other = None) ->
     fst (banner_show key other conn'
            (snd (banner_add key convert message banner_type message_id
                    expiration conn w)))
     = fst (banner_show key other conn' w))
  /\ (forall message banner_type message_id expiration,
        message_id <> Some other ->
        fst (banner_show key other conn'
               (snd (banner_update key convert message banner_type
                       message_id expiration conn w)))
        = fst (banner_show key other conn' w))
  /\ (forall message_id,
        message_id <> other ->
        fst (banner_show key other conn'
               (snd (banner_remove key message_id conn w)))
        = fst (banner_show key other conn' w)).
Proof.
  split; [|split].
  - intros message banner_type message_id expiration Hother.
    rewrite !show_on_mem_store.
    destruct (normalized convert expiration) as [e | iso] eqn:Hiso.
    + unfold banner_add, try_except, bind, normalize_expiration, lift_result,
        raise. now rewrite Hiso.
    + pose proof (banner_add_run key convert message banner_type message_id
                    expiration conn w iso Hiso) as Hrun.
      cbv zeta in Hrun. rewrite Hrun in Hother |- *.
      simpl in Hother |- *. specialize (Hother _ eq_refl).
      unfold _get_banner_key. rewrite list_after_write_other; [reflexivity|].
      intros E. rewrite <- E in Hother.
      now rewrite lookup_singleton_eq in Hother.
  - intros message banner_type message_id expiration Hother.
    rewrite !show_on_mem_store.
    destruct (banner_update_remote key convert message banner_type message_id
                expiration conn w) as [-> | [-> | (id & e & -> & ->)]];
      try reflexivity.
    simpl. unfold _get_banner_key. rewrite list_after_write_other; [reflexivity|].
    intros ->. now apply Hother.
  - intros message_id Hother. rewrite !show_on_mem_store.
    unfold banner_remove, try_except, setting_remove. simpl.
    rewrite !list_under_lookup. unfold MemStore.remove, _get_banner_key.
    rewrite lookup_delete_ne; [reflexivity|].
    intros [= E]. now apply String.app_inj in E.
Qed.

(** X12: over the in-memory Settings Store, [add] under an identifier,
    then [update] of it with a field to change, then [show]: [update]
    and [show] return the same entry, which has the new message if one
    was given and else the one added, and likewise the new level or
    else the one added, if any, and the new expiration date or else the
    one added, if any. *)
Theorem add_update_show (key : string)
    (convert : string -> string -> exn + string) (message : string)
    (banner_type expiration new_message new_type new_expiration
       : option string)
    (message_id : string) (conn : connection) (w : world MemStore.state)
    (iso new_iso : option string) :
  message_id <> "" ->
  normalized convert expiration = inr iso ->
  is_Some new_message \/ is_Some new_type \/ is_Some new_expiration ->
  normalized convert new_expiration = inr new_iso ->
  let added :=
    banner_add key convert message banner_type (Some message_id) expiration
      conn w in
  let updated :=
    banner_update key convert new_message new_type (Some message_id)
      new_expiration conn (snd added) in
  exists e,
    fst updated = inr {[ message_id := e ]}
    /\ fst (banner_show key message_id conn (snd updated))
       = inr {[ message_id := e ]}
    /\ e !! "message"
       = Some (JString match new_message with
                       | Some v => v
                       | None => message
                       end)
    /\ e !! "level"
       = JString <$> match new_type with
                     | Some v => Some v
                     | None => banner_type
                     end
    /\ e !! "expirationDate"
       = JString <$> match new_iso with
                     | Some v => Some v
                     | None => iso
                     end.
Proof.
  intros Hid Hiso Hsome Hnew added updated.
  pose proof (banner_add_run key convert message banner_type (Some message_id)
                expiration conn w iso Hiso) as Hadd.
  cbv zeta in Hadd. fold added in Hadd.
  destruct message_id as [|c rest]; [contradiction|].
  set (id := String c rest) in *. cbv iota in Hadd. simpl in Hadd.
  set (e1 := set_if_given "expirationDate" iso
               (set_if_given "level" banner_type
                  {[ "message" := JString message ]})) in *.
  assert (MemStore.list_under "host" key (remote (snd added)) !! id = Some e1)
    as Hfound.
  { rewrite Hadd. cbn [snd remote]. unfold _get_banner_key.
    rewrite list_after_write. now rewrite decide_True. }
  pose proof (banner_update_run key convert new_message new_type
                new_expiration id conn (snd added) new_iso
                (MemStore.list_under "host" key (remote (snd added)))
                e1 (remote (snd added)) Hsome Hnew eq_refl Hfound) as Hupdate.
  cbv zeta in Hupdate. fold updated in Hupdate.
  destruct (merged_entry_fields new_message new_type new_iso e1)
    as (Hm & Hl & Hx). cbv zeta in Hm, Hl, Hx.
  eexists. split; [|split; [|split; [|split]]].
  - rewrite Hupdate. reflexivity.
  - rewrite show_on_mem_store, Hupdate. cbn [snd remote]. simpl.
    unfold _get_banner_key. rewrite list_after_write.
    now rewrite decide_True.
  - rewrite Hm. unfold e1.
    rewrite !set_if_given_lookup_ne by discriminate.
    rewrite lookup_singleton_eq. now destruct new_message.
  - rewrite Hl. unfold e1.
    rewrite set_if_given_lookup_ne, set_if_given_lookup by discriminate.
    rewrite lookup_singleton_ne by discriminate.
    destruct new_type; [reflexivity|]. now destruct banner_type.
  - rewrite Hx. unfold e1.
    rewrite set_if_given_lookup, set_if_given_lookup_ne by discriminate.
    rewrite lookup_singleton_ne by discriminate.
    destruct new_iso; [reflexivity|]. now destruct iso.
Qed.

(** ** The added theorems at work *)

Lemma listing_failure_is_reported_witness :
  store_list "host" MemStore.KEY MemStore.no_conn (remote DownStore.world0)
    = (inl (VstsServiceError "Connection refused"), tt)
  /\ fst (banner_list MemStore.KEY MemStore.no_conn DownStore.world0)
     = inl (CLIError "Connection refused")
  /\ fst (banner_show MemStore.KEY "m1" MemStore.no_conn DownStore.world0)
     = inl (CLIError "Connection refused")
  /\ banner_update MemStore.KEY MemStore.convert_date
       (Some "Back at noon") None (Some "m1") None
       MemStore.no_conn DownStore.world0
     = (inl (CLIError "Connection refused"),
        World tt [SettingList "host" MemStore.KEY MemStore.no_conn]
              (entropy DownStore.world0) 0).
Proof.
  assert (store_list "host" MemStore.KEY MemStore.no_conn
            (remote DownStore.world0)
          = (inl (VstsServiceError DownStore.refused), tt)) as Hdown
    by reflexivity.
  split; [exact Hdown|].
  destruct (listing_failure_is_reported MemStore.KEY MemStore.convert_date
              DownStore.refused MemStore.no_conn DownStore.world0 tt Hdown)
    as (Hlist & Hshow & Hupdate).
  split; [exact Hlist|]. split; [exact (Hshow "m1")|].
  apply (Hupdate (Some "Back at noon") None (Some "m1") None None);
    [left; eauto | reflexivity].
Defined.

Lemma write_failure_is_reported_witness :
  fst (banner_add MemStore.KEY MemStore.convert_date
         "Maintenance" (Some "warning") (Some "m1") None
         MemStore.no_conn DownStore.world0)
  = inl (CLIError "Connection refused")
  /\ fst (banner_remove MemStore.KEY "m1" MemStore.no_conn DownStore.world0)
     = inl (CLIError "Connection refused").
Proof.
  assert (forall entries,
            fst (store_add_or_update entries "host" MemStore.no_conn
                   (remote DownStore.world0))
            = inl (VstsServiceError DownStore.refused)) as Hwrite
    by reflexivity.
  assert (forall key,
            fst (store_remove key "host" MemStore.no_conn
                   (remote DownStore.world0))
            = inl (VstsServiceError DownStore.refused)) as Hdelete
    by reflexivity.
  destruct (write_failure_is_reported MemStore.KEY MemStore.convert_date
              DownStore.refused MemStore.no_conn DownStore.world0
              Hwrite Hdelete) as (Hadd & Hremove).
  split; [|exact (Hremove "m1")].
  apply (Hadd "Maintenance" (Some "warning") (Some "m1") None None).
  reflexivity.
Defined.

Lemma banner_update_never_unsets_witness :
  let dated : entry :=
    {[ "message" := JString "Maintenance";
       "expirationDate" := JString "2019-01-31T00:00:00" ]} in
  let w : world MemStore.state :=
    World {[ ("host", "GlobalMessageBanners/m1") := dated ]}
          [] (fun n => Z.of_nat n) O in
  exists e,
    calls (snd (banner_update MemStore.KEY MemStore.convert_date
                  None (Some "warning") (Some "m1") None MemStore.no_conn w))
    = [SettingList "host" MemStore.KEY MemStore.no_conn;
       SettingAddOrUpdate {[ "GlobalMessageBanners/m1" := e ]} "host"
         MemStore.no_conn]
    /\ is_Some (e !! "expirationDate").
Proof.
  intros dated w.
  destruct (banner_update_never_unsets MemStore.KEY MemStore.convert_date
              None (Some "warning") None "m1" MemStore.no_conn w None
              {[ "m1" := dated ]} dated (remote w))
    as (e & Hcalls & Hkeeps).
  - right; left. eauto.
  - reflexivity.
  - vm_compute. reflexivity.
  - vm_compute. reflexivity.
  - exists e. split; [exact Hcalls|].
    apply Hkeeps; [apply field_expiration | eexists; vm_compute; reflexivity].
Defined.

Lemma banner_update_merges_witness :
  let dated : entry :=
    {[ "message" := JString "Maintenance";
       "expirationDate" := JString "2019-01-31T00:00:00" ]} in
  let w : world MemStore.state :=
    World {[ ("host", "GlobalMessageBanners/m1") := dated ]}
          [] (fun n => Z.of_nat n) O in
  exists e,
    e !! "message" = Some (JString "Maintenance")
    /\ e !! "level" = Some (JString "warning")
    /\ e !! "expirationDate" = Some (JString "2019-01-31T00:00:00")
    /\ e !! "priority" = None
    /\ fst (banner_update MemStore.KEY MemStore.convert_date
              None (Some "warning") (Some "m1") None MemStore.no_conn w)
       = inr {[ "m1" := e ]}.
Proof.
  intros dated w.
  destruct (banner_update_merges MemStore.KEY MemStore.convert_date
              None (Some "warning") None "m1" MemStore.no_conn w None
              {[ "m1" := dated ]} dated (remote w))
    as (e & Hfields & Hothers & _ & Hreturn).
  - right. eexists. vm_compute. reflexivity.
  - right; left. eauto.
  - reflexivity.
  - vm_compute. reflexivity.
  - vm_compute. reflexivity.
  - exists e. split; [|split; [|split; [|split]]].
    + rewrite (Hfields "message" None) by (apply elem_of_cons; now left).
      vm_compute. reflexivity.
    + apply (Hfields "level" (Some "warning")).
      apply elem_of_cons; right. apply elem_of_cons; now left.
    + rewrite (Hfields "expirationDate" None)
        by (do 2 (apply elem_of_cons; right); now apply list_elem_of_singleton).
      vm_compute. reflexivity.
    + apply Hothers. unfold banner_fields. intros Hin.
      apply elem_of_union in Hin as [Hin | Hin];
        [apply elem_of_union in Hin as [Hin | Hin]|];
        apply elem_of_singleton in Hin; discriminate Hin.
    + exact Hreturn.
Defined.

Lemma add_then_show_witness :
  exists id e,
    ({[ "m1" := {[ "message" := JString "Maintenance" ]} ]} : entries_map)
      = {[ id := e ]}
    /\ e !! "message" = Some (JString "Maintenance")
    /\ fst (banner_show MemStore.KEY id MemStore.no_conn
              (snd (banner_add MemStore.KEY MemStore.convert_date
                      "Maintenance" None (Some "m1") None MemStore.no_conn
                      MemStore.level_only_world)))
       = inr {[ "m1" := {[ "message" := JString "Maintenance" ]} ]}
    /\ exists listing,
         fst (banner_list MemStore.KEY MemStore.no_conn
                (snd (banner_add MemStore.KEY MemStore.convert_date
                        "Maintenance" None (Some "m1") None MemStore.no_conn
                        MemStore.level_only_world))) = inr listing
         /\ listing !! id = Some e.
Proof.
  apply (add_then_show MemStore.KEY MemStore.convert_date
           "Maintenance" None (Some "m1") None
           MemStore.no_conn MemStore.no_conn MemStore.level_only_world).
  vm_compute. reflexivity.
Defined.

Lemma update_then_show_witness :
  let w : world MemStore.state :=
    World {[ ("host", "GlobalMessageBanners/m1") :=
               {[ "message" := JString "Maintenance" ]} ]}
          [] (fun n => Z.of_nat n) O in
  exists id,
    Some "m1" = Some id
    /\ fst (banner_show MemStore.KEY id MemStore.no_conn
              (snd (banner_update MemStore.KEY MemStore.convert_date
                      (Some "Maintenance complete") None (Some "m1") None
                      MemStore.no_conn w)))
       = inr {[ "m1" := {[ "message" := JString "Maintenance complete" ]} ]}.
Proof.
  intros w.
  apply (update_then_show MemStore.KEY MemStore.convert_date
           (Some "Maintenance complete") None (Some "m1") None
           MemStore.no_conn MemStore.no_conn w).
  vm_compute. reflexivity.
Defined.

Lemma add_update_show_witness :
  exists e,
    fst (banner_show MemStore.KEY "m1" MemStore.no_conn
           (snd (banner_update MemStore.KEY MemStore.convert_date
                   (Some "Maintenance complete") None (Some "m1") None
                   MemStore.no_conn
                   (snd (banner_add MemStore.KEY MemStore.convert_date
                           "System maintenance at 10pm" (Some "warning")
                           (Some "m1") None MemStore.no_conn
                           MemStore.empty_world)))))
    = inr {[ "m1" := e ]}
    /\ e !! "message" = Some (JString "Maintenance complete")
    /\ e !! "level" = Some (JString "warning")
    /\ e !! "expirationDate" = None.
Proof.
  destruct (add_update_show MemStore.KEY MemStore.convert_date
              "System maintenance at 10pm" (Some "warning") None
              (Some "Maintenance complete") None None "m1"
              MemStore.no_conn MemStore.empty_world None None)
    as (e & _ & Hshow & Hmessage & Hlevel & Hexpiration).
  - discriminate.
  - reflexivity.
  - left. eauto.
  - reflexivity.
  - exists e. repeat split; assumption.
Defined.
